(** * Branch & product-code mapper ([app.py]): model and verified properties

    The program is a Streamlit script.  It downloads two JSON lists, turns
    them into pandas frames, renames columns, coerces every branch's
    [productCodes] into a list, and answers two searches (product to
    branches, branch to products).

    Modelling conventions.
    - Python values are the values JSON decoding and frame construction can
      put into a cell: [None], the missing-value float [nan], booleans,
      integers, other floats, strings, lists and string-keyed dicts.  A float
      other than [nan] is described by what the program can observe of it
      (its printed form, its integer part, whether it is a whole number), not
      by its bits; every statement below holds for all such descriptions.
    - Text is Rocq's [string], holding the UTF-8 encoding of the Python
      string; what Python does character by character (stripping, case
      folding, reading digits, escaping) is done here on the decoded code
      points, with the character classes of Unicode 14.0, the version
      CPython 3.11 carries.
    - A computation either returns, raises a Python exception, or leaves the
      part of the libraries that is interpreted here ([Unmodelled]: a regular
      expression outside the literal-and-dot fragment, [pd.isna] of a list,
      [isin] when a value or a cell is itself a list or a dict, the
      normalisation of a frame without records that has two
      [product_codes] columns).
    - Streamlit calls are recorded as a trace of events.
    - Integers are those JSON decoding yields, within the interpreter's cap
      on the digits of an integer, so that printing one cannot fail.
    - pandas is taken at the behaviour of its 2.x releases on object-dtype
      columns: [astype(str)] prints every cell, missing ones included.
      Column labels of a frame are pairwise different, except that renaming
      can make two of them equal; of that, the case the program meets first
      (two [product_codes] columns) is modelled.
    - The one-hour [st.cache_data] memoisation is not modelled. *)

From Stdlib Require Import String Ascii List ZArith NArith Bool DecimalString Lia.
Import ListNotations.
Local Open Scope list_scope.
Local Open Scope string_scope.

Set Implicit Arguments.

(** ** Outcomes of Python computations *)

Inductive exn_class : Type :=
  | TypeError
  | ValueError
  | KeyError
  | OverflowError
  | UpstreamError.

(** An exception object: its class and the text [str(e)] gives. *)
Record exn : Type := mk_exn { exn_class_of : exn_class; exn_text : string }.

Inductive outcome (A : Type) : Type :=
  | Ok (a : A)
  | Raise (e : exn)
  | Unmodelled.

Arguments Ok {A} a.
Arguments Raise {A} e.
Arguments Unmodelled {A}.

Definition bind {A B : Type} (m : outcome A) (k : A -> outcome B) : outcome B :=
  match m with
  | Ok a => k a
  | Raise e => Raise e
  | Unmodelled => Unmodelled
  end.

(** [try: m  except Exception as e: h e] *)
Definition try_except {A : Type} (m : outcome A) (h : exn -> outcome A) : outcome A :=
  match m with
  | Ok a => Ok a
  | Raise e => h e
  | Unmodelled => Unmodelled
  end.

Declare Scope py_scope.
Delimit Scope py_scope with py.
Notation "x <- m ;; k" := (bind m (fun x => k))
  (at level 61, m at next level, right associativity) : py_scope.
Local Open Scope py_scope.

Fixpoint mapM {A B : Type} (f : A -> outcome B) (l : list A) : outcome (list B) :=
  match l with
  | [] => Ok []
  | a :: r => b <- f a ;; bs <- mapM f r ;; Ok (b :: bs)
  end.

(** ** Python values *)

(** A float other than [nan], as the program can observe it: what [repr]
    prints, the integer [int] truncates it to (none for an infinity), and
    whether it is a whole number. *)
Record pyfloat : Type :=
  mk_float { float_repr : string; float_trunc : option Z; float_whole : bool }.

#[warnings="-register-all"]
Inductive pyval : Type :=
  | VNone
  | VNaN
  | VBool (b : bool)
  | VInt (n : Z)
  | VFloat (f : pyfloat)
  | VStr (s : string)
  | VList (l : list pyval)
  | VDict (d : list (string * pyval)).

Definition type_name (v : pyval) : string :=
  match v with
  | VNone => "NoneType"
  | VNaN => "float"
  | VBool _ => "bool"
  | VInt _ => "int"
  | VFloat _ => "float"
  | VStr _ => "str"
  | VList _ => "list"
  | VDict _ => "dict"
  end.

Definition type_error (msg : string) : exn := mk_exn TypeError msg.
Definition value_error (msg : string) : exn := mk_exn ValueError msg.

(** ** Text

    A Python string is a sequence of Unicode code points.  It is carried
    here as its UTF-8 encoding, which is what Rocq's string literals hold;
    the operations that work character by character decode it first.  The
    operations that compare whole texts (equality, [in], [split] at a comma,
    [join]) work on the encoding directly, which gives the same answers. *)

Definition byte_of (c : ascii) : N := N_of_ascii c.

(** One character of a string: its code point and the bytes that encode it. *)
Record uchar : Type := mk_uchar { code_point : N; utf8 : string }.

(** The bytes [10xxxxxx] that continue a multi-byte character. *)
Definition continuation (c : ascii) : bool :=
  ((128 <=? byte_of c) && (byte_of c <? 192))%N.

Definition tail_bits (c : ascii) : N := (byte_of c - 128)%N.

(** A byte that starts no well-formed sequence encodes no character of a
    Python string; it is kept as a character of its own, numbered in the
    surrogate range, so that decoding is total and loses no byte. *)
Definition stray (b : ascii) : uchar * nat :=
  (mk_uchar (56320 + byte_of b) (String b EmptyString), 0).

(** The character at the head of [String b1 rest], and how many bytes of
    [rest] belong to it.  Sequences of two, three and four bytes are
    accepted in their shortest form only, surrogates excluded. *)
Definition head_char (b1 : ascii) (rest : string) : uchar * nat :=
  let n1 := byte_of b1 in
  if (n1 <? 128)%N then (mk_uchar n1 (String b1 EmptyString), 0)
  else
    match rest with
    | String b2 rest2 =>
        if negb (continuation b2) then stray b1
        else if ((194 <=? n1) && (n1 <? 224))%N then
          (mk_uchar ((n1 - 192) * 64 + tail_bits b2) (String b1 (String b2 EmptyString)), 1)
        else
          match rest2 with
          | String b3 rest3 =>
              if negb (continuation b3) then stray b1
              else if ((224 <=? n1) && (n1 <? 240))%N then
                let p := ((n1 - 224) * 4096 + tail_bits b2 * 64 + tail_bits b3)%N in
                if ((2048 <=? p) && negb ((55296 <=? p) && (p <? 57344)))%N
                then (mk_uchar p (String b1 (String b2 (String b3 EmptyString))), 2)
                else stray b1
              else
                match rest3 with
                | String b4 _ =>
                    let p := ((n1 - 240) * 262144 + tail_bits b2 * 4096
                              + tail_bits b3 * 64 + tail_bits b4)%N in
                    if (continuation b4 && (240 <=? n1) && (n1 <? 245)
                        && (65536 <=? p) && (p <? 1114112))%N
                    then (mk_uchar p (String b1 (String b2 (String b3 (String b4 EmptyString)))),
                          3)
                    else stray b1
                | EmptyString => stray b1
                end
          | EmptyString => stray b1
          end
    | EmptyString => stray b1
    end.

(** The characters of a string, after [skip] bytes that belong to the
    character before. *)
Fixpoint code_points_from (skip : nat) (s : string) : list uchar :=
  match s with
  | EmptyString => []
  | String b rest =>
      match skip with
      | S k => code_points_from k rest
      | O => let (u, extra) := head_char b rest in u :: code_points_from extra rest
      end
  end.

Definition code_points (s : string) : list uchar := code_points_from 0 s.

(** The string as Python sees it: its code points in order. *)
Definition points (s : string) : list N := map code_point (code_points s).

(** The string made of the given characters. *)
Fixpoint text_of (l : list uchar) : string :=
  match l with
  | [] => EmptyString
  | u :: r => utf8 u ++ text_of r
  end.

(** The string without its first [k] bytes. *)
Fixpoint skip_bytes (k : nat) (s : string) : string :=
  match k, s with
  | S k', String _ r => skip_bytes k' r
  | _, _ => s
  end.

(** The string starts where a character starts: it is empty, or its first
    byte continues no character. *)
Definition boundary (s : string) : bool :=
  match s with
  | EmptyString => true
  | String c _ => negb (continuation c)
  end.

(** The tables below are those of Unicode 14.0, the version CPython 3.11
    is built with. *)

(** The code points [str.isspace] accepts: the characters [str.strip]
    removes. *)
Definition whitespace : list N :=
  [
   9; 10; 11; 12; 13; 28; 29; 30; 31; 32; 133; 160;
   5760; 8192; 8193; 8194; 8195; 8196; 8197; 8198; 8199; 8200; 8201; 8202;
   8232; 8233; 8239; 8287; 12288]%N.

Definition isspace (c : N) : bool := existsb (N.eqb c) whitespace.

(** The zero of every run of ten decimal digits (general category Nd). *)
Definition decimal_zeros : list N :=
  [
   48; 1632; 1776; 1984; 2406; 2534; 2662; 2790; 2918; 3046;
   3174; 3302; 3430; 3558; 3664; 3792; 3872; 4160; 4240; 6112;
   6160; 6470; 6608; 6784; 6800; 6992; 7088; 7232; 7248; 42528;
   43216; 43264; 43472; 43504; 43600; 44016; 65296; 66720; 68912; 69734;
   69872; 69942; 70096; 70384; 70736; 70864; 71248; 71360; 71472; 71904;
   72016; 72784; 73040; 73120; 92768; 92864; 93008; 120782; 120792; 120802;
   120812; 120822; 123200; 123632; 125264; 130032]%N.

(** [unicodedata.decimal(c)], when [c] is a decimal digit. *)
Definition decimal_digit (c : N) : option N :=
  match find (fun z => (z <=? c) && (c <=? z + 9))%N decimal_zeros with
  | Some z => Some (c - z)%N
  | None => None
  end.

(** The ranges of code points that [str.isprintable] rejects, which [repr]
    writes as escapes. *)
Definition unprintable : list (N * N) :=
  [
   (0, 31); (127, 160); (173, 173); (888, 889); (896, 899);
   (907, 907); (909, 909); (930, 930); (1328, 1328); (1367, 1368);
   (1419, 1420); (1424, 1424); (1480, 1487); (1515, 1518); (1525, 1541);
   (1564, 1564); (1757, 1757); (1806, 1807); (1867, 1868); (1970, 1983);
   (2043, 2044); (2094, 2095); (2111, 2111); (2140, 2141); (2143, 2143);
   (2155, 2159); (2191, 2199); (2274, 2274); (2436, 2436); (2445, 2446);
   (2449, 2450); (2473, 2473); (2481, 2481); (2483, 2485); (2490, 2491);
   (2501, 2502); (2505, 2506); (2511, 2518); (2520, 2523); (2526, 2526);
   (2532, 2533); (2559, 2560); (2564, 2564); (2571, 2574); (2577, 2578);
   (2601, 2601); (2609, 2609); (2612, 2612); (2615, 2615); (2618, 2619);
   (2621, 2621); (2627, 2630); (2633, 2634); (2638, 2640); (2642, 2648);
   (2653, 2653); (2655, 2661); (2679, 2688); (2692, 2692); (2702, 2702);
   (2706, 2706); (2729, 2729); (2737, 2737); (2740, 2740); (2746, 2747);
   (2758, 2758); (2762, 2762); (2766, 2767); (2769, 2783); (2788, 2789);
   (2802, 2808); (2816, 2816); (2820, 2820); (2829, 2830); (2833, 2834);
   (2857, 2857); (2865, 2865); (2868, 2868); (2874, 2875); (2885, 2886);
   (2889, 2890); (2894, 2900); (2904, 2907); (2910, 2910); (2916, 2917);
   (2936, 2945); (2948, 2948); (2955, 2957); (2961, 2961); (2966, 2968);
   (2971, 2971); (2973, 2973); (2976, 2978); (2981, 2983); (2987, 2989);
   (3002, 3005); (3011, 3013); (3017, 3017); (3022, 3023); (3025, 3030);
   (3032, 3045); (3067, 3071); (3085, 3085); (3089, 3089); (3113, 3113);
   (3130, 3131); (3141, 3141); (3145, 3145); (3150, 3156); (3159, 3159);
   (3163, 3164); (3166, 3167); (3172, 3173); (3184, 3190); (3213, 3213);
   (3217, 3217); (3241, 3241); (3252, 3252); (3258, 3259); (3269, 3269);
   (3273, 3273); (3278, 3284); (3287, 3292); (3295, 3295); (3300, 3301);
   (3312, 3312); (3315, 3327); (3341, 3341); (3345, 3345); (3397, 3397);
   (3401, 3401); (3408, 3411); (3428, 3429); (3456, 3456); (3460, 3460);
   (3479, 3481); (3506, 3506); (3516, 3516); (3518, 3519); (3527, 3529);
   (3531, 3534); (3541, 3541); (3543, 3543); (3552, 3557); (3568, 3569);
   (3573, 3584); (3643, 3646); (3676, 3712); (3715, 3715); (3717, 3717);
   (3723, 3723); (3748, 3748); (3750, 3750); (3774, 3775); (3781, 3781);
   (3783, 3783); (3790, 3791); (3802, 3803); (3808, 3839); (3912, 3912);
   (3949, 3952); (3992, 3992); (4029, 4029); (4045, 4045); (4059, 4095);
   (4294, 4294); (4296, 4300); (4302, 4303); (4681, 4681); (4686, 4687);
   (4695, 4695); (4697, 4697); (4702, 4703); (4745, 4745); (4750, 4751);
   (4785, 4785); (4790, 4791); (4799, 4799); (4801, 4801); (4806, 4807);
   (4823, 4823); (4881, 4881); (4886, 4887); (4955, 4956); (4989, 4991);
   (5018, 5023); (5110, 5111); (5118, 5119); (5760, 5760); (5789, 5791);
   (5881, 5887); (5910, 5918); (5943, 5951); (5972, 5983); (5997, 5997);
   (6001, 6001); (6004, 6015); (6110, 6111); (6122, 6127); (6138, 6143);
   (6158, 6158); (6170, 6175); (6265, 6271); (6315, 6319); (6390, 6399);
   (6431, 6431); (6444, 6447); (6460, 6463); (6465, 6467); (6510, 6511);
   (6517, 6527); (6572, 6575); (6602, 6607); (6619, 6621); (6684, 6685);
   (6751, 6751); (6781, 6782); (6794, 6799); (6810, 6815); (6830, 6831);
   (6863, 6911); (6989, 6991); (7039, 7039); (7156, 7163); (7224, 7226);
   (7242, 7244); (7305, 7311); (7355, 7356); (7368, 7375); (7419, 7423);
   (7958, 7959); (7966, 7967); (8006, 8007); (8014, 8015); (8024, 8024);
   (8026, 8026); (8028, 8028); (8030, 8030); (8062, 8063); (8117, 8117);
   (8133, 8133); (8148, 8149); (8156, 8156); (8176, 8177); (8181, 8181);
   (8191, 8207); (8232, 8239); (8287, 8303); (8306, 8307); (8335, 8335);
   (8349, 8351); (8385, 8399); (8433, 8447); (8588, 8591); (9255, 9279);
   (9291, 9311); (11124, 11125); (11158, 11158); (11508, 11512); (11558, 11558);
   (11560, 11564); (11566, 11567); (11624, 11630); (11633, 11646); (11671, 11679);
   (11687, 11687); (11695, 11695); (11703, 11703); (11711, 11711); (11719, 11719);
   (11727, 11727); (11735, 11735); (11743, 11743); (11870, 11903); (11930, 11930);
   (12020, 12031); (12246, 12271); (12284, 12288); (12352, 12352); (12439, 12440);
   (12544, 12548); (12592, 12592); (12687, 12687); (12772, 12783); (12831, 12831);
   (42125, 42127); (42183, 42191); (42540, 42559); (42744, 42751); (42955, 42959);
   (42962, 42962); (42964, 42964); (42970, 42993); (43053, 43055); (43066, 43071);
   (43128, 43135); (43206, 43213); (43226, 43231); (43348, 43358); (43389, 43391);
   (43470, 43470); (43482, 43485); (43519, 43519); (43575, 43583); (43598, 43599);
   (43610, 43611); (43715, 43738); (43767, 43776); (43783, 43784); (43791, 43792);
   (43799, 43807); (43815, 43815); (43823, 43823); (43884, 43887); (44014, 44015);
   (44026, 44031); (55204, 55215); (55239, 55242); (55292, 63743); (64110, 64111);
   (64218, 64255); (64263, 64274); (64280, 64284); (64311, 64311); (64317, 64317);
   (64319, 64319); (64322, 64322); (64325, 64325); (64451, 64466); (64912, 64913);
   (64968, 64974); (64976, 65007); (65050, 65055); (65107, 65107); (65127, 65127);
   (65132, 65135); (65141, 65141); (65277, 65280); (65471, 65473); (65480, 65481);
   (65488, 65489); (65496, 65497); (65501, 65503); (65511, 65511); (65519, 65531);
   (65534, 65535); (65548, 65548); (65575, 65575); (65595, 65595); (65598, 65598);
   (65614, 65615); (65630, 65663); (65787, 65791); (65795, 65798); (65844, 65846);
   (65935, 65935); (65949, 65951); (65953, 65999); (66046, 66175); (66205, 66207);
   (66257, 66271); (66300, 66303); (66340, 66348); (66379, 66383); (66427, 66431);
   (66462, 66462); (66500, 66503); (66518, 66559); (66718, 66719); (66730, 66735);
   (66772, 66775); (66812, 66815); (66856, 66863); (66916, 66926); (66939, 66939);
   (66955, 66955); (66963, 66963); (66966, 66966); (66978, 66978); (66994, 66994);
   (67002, 67002); (67005, 67071); (67383, 67391); (67414, 67423); (67432, 67455);
   (67462, 67462); (67505, 67505); (67515, 67583); (67590, 67591); (67593, 67593);
   (67638, 67638); (67641, 67643); (67645, 67646); (67670, 67670); (67743, 67750);
   (67760, 67807); (67827, 67827); (67830, 67834); (67868, 67870); (67898, 67902);
   (67904, 67967); (68024, 68027); (68048, 68049); (68100, 68100); (68103, 68107);
   (68116, 68116); (68120, 68120); (68150, 68151); (68155, 68158); (68169, 68175);
   (68185, 68191); (68256, 68287); (68327, 68330); (68343, 68351); (68406, 68408);
   (68438, 68439); (68467, 68471); (68498, 68504); (68509, 68520); (68528, 68607);
   (68681, 68735); (68787, 68799); (68851, 68857); (68904, 68911); (68922, 69215);
   (69247, 69247); (69290, 69290); (69294, 69295); (69298, 69375); (69416, 69423);
   (69466, 69487); (69514, 69551); (69580, 69599); (69623, 69631); (69710, 69713);
   (69750, 69758); (69821, 69821); (69827, 69839); (69865, 69871); (69882, 69887);
   (69941, 69941); (69960, 69967); (70007, 70015); (70112, 70112); (70133, 70143);
   (70162, 70162); (70207, 70271); (70279, 70279); (70281, 70281); (70286, 70286);
   (70302, 70302); (70314, 70319); (70379, 70383); (70394, 70399); (70404, 70404);
   (70413, 70414); (70417, 70418); (70441, 70441); (70449, 70449); (70452, 70452);
   (70458, 70458); (70469, 70470); (70473, 70474); (70478, 70479); (70481, 70486);
   (70488, 70492); (70500, 70501); (70509, 70511); (70517, 70655); (70748, 70748);
   (70754, 70783); (70856, 70863); (70874, 71039); (71094, 71095); (71134, 71167);
   (71237, 71247); (71258, 71263); (71277, 71295); (71354, 71359); (71370, 71423);
   (71451, 71452); (71468, 71471); (71495, 71679); (71740, 71839); (71923, 71934);
   (71943, 71944); (71946, 71947); (71956, 71956); (71959, 71959); (71990, 71990);
   (71993, 71994); (72007, 72015); (72026, 72095); (72104, 72105); (72152, 72153);
   (72165, 72191); (72264, 72271); (72355, 72367); (72441, 72703); (72713, 72713);
   (72759, 72759); (72774, 72783); (72813, 72815); (72848, 72849); (72872, 72872);
   (72887, 72959); (72967, 72967); (72970, 72970); (73015, 73017); (73019, 73019);
   (73022, 73022); (73032, 73039); (73050, 73055); (73062, 73062); (73065, 73065);
   (73103, 73103); (73106, 73106); (73113, 73119); (73130, 73439); (73465, 73647);
   (73649, 73663); (73714, 73726); (74650, 74751); (74863, 74863); (74869, 74879);
   (75076, 77711); (77811, 77823); (78895, 82943); (83527, 92159); (92729, 92735);
   (92767, 92767); (92778, 92781); (92863, 92863); (92874, 92879); (92910, 92911);
   (92918, 92927); (92998, 93007); (93018, 93018); (93026, 93026); (93048, 93052);
   (93072, 93759); (93851, 93951); (94027, 94030); (94088, 94094); (94112, 94175);
   (94181, 94191); (94194, 94207); (100344, 100351); (101590, 101631); (101641, 110575);
   (110580, 110580); (110588, 110588); (110591, 110591); (110883, 110927); (110931, 110947);
   (110952, 110959); (111356, 113663); (113771, 113775); (113789, 113791); (113801, 113807);
   (113818, 113819); (113824, 118527); (118574, 118575); (118599, 118607); (118724, 118783);
   (119030, 119039); (119079, 119080); (119155, 119162); (119275, 119295); (119366, 119519);
   (119540, 119551); (119639, 119647); (119673, 119807); (119893, 119893); (119965, 119965);
   (119968, 119969); (119971, 119972); (119975, 119976); (119981, 119981); (119994, 119994);
   (119996, 119996); (120004, 120004); (120070, 120070); (120075, 120076); (120085, 120085);
   (120093, 120093); (120122, 120122); (120127, 120127); (120133, 120133); (120135, 120137);
   (120145, 120145); (120486, 120487); (120780, 120781); (121484, 121498); (121504, 121504);
   (121520, 122623); (122655, 122879); (122887, 122887); (122905, 122906); (122914, 122914);
   (122917, 122917); (122923, 123135); (123181, 123183); (123198, 123199); (123210, 123213);
   (123216, 123535); (123567, 123583); (123642, 123646); (123648, 124895); (124903, 124903);
   (124908, 124908); (124911, 124911); (124927, 124927); (125125, 125126); (125143, 125183);
   (125260, 125263); (125274, 125277); (125280, 126064); (126133, 126208); (126270, 126463);
   (126468, 126468); (126496, 126496); (126499, 126499); (126501, 126502); (126504, 126504);
   (126515, 126515); (126520, 126520); (126522, 126522); (126524, 126529); (126531, 126534);
   (126536, 126536); (126538, 126538); (126540, 126540); (126544, 126544); (126547, 126547);
   (126549, 126550); (126552, 126552); (126554, 126554); (126556, 126556); (126558, 126558);
   (126560, 126560); (126563, 126563); (126565, 126566); (126571, 126571); (126579, 126579);
   (126584, 126584); (126589, 126589); (126591, 126591); (126602, 126602); (126620, 126624);
   (126628, 126628); (126634, 126634); (126652, 126703); (126706, 126975); (127020, 127023);
   (127124, 127135); (127151, 127152); (127168, 127168); (127184, 127184); (127222, 127231);
   (127406, 127461); (127491, 127503); (127548, 127551); (127561, 127567); (127570, 127583);
   (127590, 127743); (128728, 128732); (128749, 128751); (128765, 128767); (128884, 128895);
   (128985, 128991); (129004, 129007); (129009, 129023); (129036, 129039); (129096, 129103);
   (129114, 129119); (129160, 129167); (129198, 129199); (129202, 129279); (129620, 129631);
   (129646, 129647); (129653, 129655); (129661, 129663); (129671, 129679); (129709, 129711);
   (129723, 129727); (129734, 129743); (129754, 129759); (129768, 129775); (129783, 129791);
   (129939, 129939); (129995, 130031); (130042, 131071); (173792, 173823); (177977, 177983);
   (178206, 178207); (183970, 183983); (191457, 194559); (195102, 196607); (201547, 917759);
   (918000, 1114111)]%N.

Definition printable (c : N) : bool :=
  negb (existsb (fun r : N * N => (fst r <=? c) && (c <=? snd r))%N unprintable).

(** Letters that differ in case only.  Under [re.IGNORECASE] a character of
    the pattern matches a character of the text exactly when the two lower
    to the same character, or to two of the few lowercase characters that
    share an uppercase form (such as s and the long s); these classes are
    given here by their least member.  A row [(first, last, stride, key)]
    sends [first + k * stride], up to [last], to [key + k * stride]. *)
Definition fold_runs : list (N * N * N * N) :=
  [
   (97, 122, 1, 65); (224, 246, 1, 192); (248, 254, 1, 216);
   (257, 303, 2, 256); (304, 304, 1, 73); (305, 305, 1, 73);
   (307, 311, 2, 306); (314, 328, 2, 313); (331, 375, 2, 330);
   (376, 376, 1, 255); (378, 382, 2, 377); (383, 383, 1, 83);
   (387, 389, 2, 386); (392, 392, 1, 391); (396, 396, 1, 395);
   (402, 402, 1, 401); (409, 409, 1, 408); (417, 421, 2, 416);
   (424, 424, 1, 423); (429, 429, 1, 428); (432, 432, 1, 431);
   (436, 438, 2, 435); (441, 441, 1, 440); (445, 445, 1, 444);
   (453, 453, 1, 452); (454, 454, 1, 452); (456, 456, 1, 455);
   (457, 457, 1, 455); (459, 459, 1, 458); (460, 460, 1, 458);
   (462, 476, 2, 461); (477, 477, 1, 398); (479, 495, 2, 478);
   (498, 498, 1, 497); (499, 499, 1, 497); (501, 501, 1, 500);
   (502, 502, 1, 405); (503, 503, 1, 447); (505, 543, 2, 504);
   (544, 544, 1, 414); (547, 563, 2, 546); (572, 572, 1, 571);
   (573, 573, 1, 410); (578, 578, 1, 577); (579, 579, 1, 384);
   (583, 591, 2, 582); (595, 595, 1, 385); (596, 596, 1, 390);
   (598, 599, 1, 393); (601, 601, 1, 399); (603, 603, 1, 400);
   (608, 608, 1, 403); (611, 611, 1, 404); (616, 616, 1, 407);
   (617, 617, 1, 406); (623, 623, 1, 412); (626, 626, 1, 413);
   (629, 629, 1, 415); (640, 640, 1, 422); (643, 643, 1, 425);
   (648, 648, 1, 430); (649, 649, 1, 580); (650, 651, 1, 433);
   (652, 652, 1, 581); (658, 658, 1, 439); (881, 883, 2, 880);
   (887, 887, 1, 886); (921, 921, 1, 837); (924, 924, 1, 181);
   (940, 940, 1, 902); (941, 943, 1, 904); (945, 952, 1, 913);
   (953, 953, 1, 837); (954, 955, 1, 922); (956, 956, 1, 181);
   (957, 961, 1, 925); (962, 962, 1, 931); (963, 971, 1, 931);
   (972, 972, 1, 908); (973, 974, 1, 910); (976, 976, 1, 914);
   (977, 977, 1, 920); (981, 981, 1, 934); (982, 982, 1, 928);
   (983, 983, 1, 975); (985, 1007, 2, 984); (1008, 1008, 1, 922);
   (1009, 1009, 1, 929); (1011, 1011, 1, 895); (1012, 1012, 1, 920);
   (1013, 1013, 1, 917); (1016, 1016, 1, 1015); (1017, 1017, 1, 1010);
   (1019, 1019, 1, 1018); (1021, 1023, 1, 891); (1072, 1103, 1, 1040);
   (1104, 1119, 1, 1024); (1121, 1153, 2, 1120); (1163, 1215, 2, 1162);
   (1218, 1230, 2, 1217); (1231, 1231, 1, 1216); (1233, 1327, 2, 1232);
   (1377, 1414, 1, 1329); (5112, 5117, 1, 5104); (7296, 7296, 1, 1042);
   (7297, 7297, 1, 1044); (7298, 7298, 1, 1054); (7299, 7300, 1, 1057);
   (7301, 7301, 1, 1058); (7302, 7302, 1, 1066); (7303, 7303, 1, 1122);
   (7312, 7354, 1, 4304); (7357, 7359, 1, 4349); (7681, 7829, 2, 7680);
   (7835, 7835, 1, 7776); (7838, 7838, 1, 223); (7841, 7935, 2, 7840);
   (7944, 7951, 1, 7936); (7960, 7965, 1, 7952); (7976, 7983, 1, 7968);
   (7992, 7999, 1, 7984); (8008, 8013, 1, 8000); (8025, 8031, 2, 8017);
   (8040, 8047, 1, 8032); (8072, 8079, 1, 8064); (8088, 8095, 1, 8080);
   (8104, 8111, 1, 8096); (8120, 8121, 1, 8112); (8122, 8123, 1, 8048);
   (8124, 8124, 1, 8115); (8126, 8126, 1, 837); (8136, 8139, 1, 8050);
   (8140, 8140, 1, 8131); (8147, 8147, 1, 912); (8152, 8153, 1, 8144);
   (8154, 8155, 1, 8054); (8163, 8163, 1, 944); (8168, 8169, 1, 8160);
   (8170, 8171, 1, 8058); (8172, 8172, 1, 8165); (8184, 8185, 1, 8056);
   (8186, 8187, 1, 8060); (8188, 8188, 1, 8179); (8486, 8486, 1, 937);
   (8490, 8490, 1, 75); (8491, 8491, 1, 197); (8526, 8526, 1, 8498);
   (8560, 8575, 1, 8544); (8580, 8580, 1, 8579); (9424, 9449, 1, 9398);
   (11312, 11359, 1, 11264); (11361, 11361, 1, 11360); (11362, 11362, 1, 619);
   (11363, 11363, 1, 7549); (11364, 11364, 1, 637); (11365, 11365, 1, 570);
   (11366, 11366, 1, 574); (11368, 11372, 2, 11367); (11373, 11373, 1, 593);
   (11374, 11374, 1, 625); (11375, 11375, 1, 592); (11376, 11376, 1, 594);
   (11379, 11379, 1, 11378); (11382, 11382, 1, 11381); (11390, 11391, 1, 575);
   (11393, 11491, 2, 11392); (11500, 11502, 2, 11499); (11507, 11507, 1, 11506);
   (11520, 11557, 1, 4256); (11559, 11559, 1, 4295); (11565, 11565, 1, 4301);
   (42561, 42569, 2, 42560); (42570, 42570, 1, 7304); (42571, 42571, 1, 7304);
   (42573, 42605, 2, 42572); (42625, 42651, 2, 42624); (42787, 42799, 2, 42786);
   (42803, 42863, 2, 42802); (42874, 42876, 2, 42873); (42877, 42877, 1, 7545);
   (42879, 42887, 2, 42878); (42892, 42892, 1, 42891); (42893, 42893, 1, 613);
   (42897, 42899, 2, 42896); (42903, 42921, 2, 42902); (42922, 42922, 1, 614);
   (42923, 42923, 1, 604); (42924, 42924, 1, 609); (42925, 42925, 1, 620);
   (42926, 42926, 1, 618); (42928, 42928, 1, 670); (42929, 42929, 1, 647);
   (42930, 42930, 1, 669); (42933, 42947, 2, 42932); (42948, 42948, 1, 42900);
   (42949, 42949, 1, 642); (42950, 42950, 1, 7566); (42952, 42954, 2, 42951);
   (42961, 42961, 1, 42960); (42967, 42969, 2, 42966); (42998, 42998, 1, 42997);
   (43859, 43859, 1, 42931); (43888, 43967, 1, 5024); (64262, 64262, 1, 64261);
   (65345, 65370, 1, 65313); (66600, 66639, 1, 66560); (66776, 66811, 1, 66736);
   (66967, 66977, 1, 66928); (66979, 66993, 1, 66940); (66995, 67001, 1, 66956);
   (67003, 67004, 1, 66964); (68800, 68850, 1, 68736); (71872, 71903, 1, 71840);
   (93792, 93823, 1, 93760); (125218, 125251, 1, 125184)]%N.

Definition in_run (c : N) (run : N * N * N * N) : bool :=
  let '(first, last, stride, _) := run in
  ((first <=? c) && (c <=? last) && ((c - first) mod stride =? 0))%N.

Definition case_key (c : N) : N :=
  match find (in_run c) fold_runs with
  | Some (first, _, _, key) => (key + (c - first))%N
  | None => c
  end.

Definition same_letter (a b : N) : bool := (case_key a =? case_key b)%N.

(** The blanks [int(...)] skips around a literal, once the literal is in
    its ASCII form. *)
Definition int_blank (c : N) : bool :=
  ((9 <=? c) && (c <=? 13) || (c =? 32))%N.

Definition is_digit (c : N) : bool := ((48 <=? c) && (c <=? 57))%N.

Fixpoint lstrip_by {A : Type} (blank : A -> bool) (l : list A) : list A :=
  match l with
  | [] => []
  | c :: r => if blank c then lstrip_by blank r else l
  end.

Fixpoint rstrip_by {A : Type} (blank : A -> bool) (l : list A) : list A :=
  match l with
  | [] => []
  | c :: r =>
      match rstrip_by blank r with
      | [] => if blank c then [] else [c]
      | r' => c :: r'
      end
  end.

Definition blank (u : uchar) : bool := isspace (code_point u).

(** [s.strip()] *)
Definition strip (s : string) : string :=
  text_of (rstrip_by blank (lstrip_by blank (code_points s))).

(** [s.split(sep)] for a one-character ASCII separator: never an empty
    list. *)
Fixpoint split (sep : ascii) (s : string) : list string :=
  match s with
  | EmptyString => [EmptyString]
  | String c r =>
      if Ascii.eqb c sep then EmptyString :: split sep r
      else match split sep r with
           | p :: ps => String c p :: ps
           | [] => [String c EmptyString]
           end
  end.

(** [sep.join(pieces)] *)
Fixpoint join (sep : string) (pieces : list string) : string :=
  match pieces with
  | [] => EmptyString
  | [p] => p
  | p :: ps => p ++ sep ++ join sep ps
  end.

Definition nonempty (s : string) : bool :=
  match s with EmptyString => false | _ => true end.

(** Decimal text of an integer, as [str(n)] prints it. *)
Definition str_of_Z (n : Z) : string := NilZero.string_of_int (Z.to_int n).

Fixpoint zeros (k : nat) : string :=
  match k with O => EmptyString | S k' => String "0" (zeros k') end.

(** Left padding with ["0"] up to [width] characters. *)
Definition zfill (width : nat) (s : string) : string :=
  zeros (width - String.length s) ++ s.

(** [format(n, "02d")]: sign-aware zero padding to two characters. *)
Definition format_02d (n : Z) : string :=
  if (n <? 0)%Z then "-" ++ zfill 1 (str_of_Z (- n)) else zfill 2 (str_of_Z n).

Definition hex_digit (n : N) : ascii :=
  if (n <? 10)%N then ascii_of_N (48 + n) else ascii_of_N (87 + n).

(** [n] in lowercase hexadecimal, on [width] digits. *)
Fixpoint hex (width : nat) (n : N) : string :=
  match width with
  | O => EmptyString
  | S w => hex w (n / 16) ++ String (hex_digit (n mod 16)) EmptyString
  end.

Fixpoint contains_char (c : ascii) (s : string) : bool :=
  match s with
  | EmptyString => false
  | String a r => Ascii.eqb a c || contains_char c r
  end.

(** One character inside [repr] of a string quoted with [q]. *)
Definition repr_char (q : ascii) (u : uchar) : string :=
  let c := code_point u in
  if (c =? byte_of q)%N || (c =? 92)%N then String "\" (utf8 u)
  else if (c =? 9)%N then "\t"
  else if (c =? 10)%N then "\n"
  else if (c =? 13)%N then "\r"
  else if printable c then utf8 u
  else if (c <? 256)%N then "\x" ++ hex 2 c
  else if (c <? 65536)%N then "\u" ++ hex 4 c
  else "\U" ++ hex 8 c.

Fixpoint repr_chars (q : ascii) (l : list uchar) : string :=
  match l with
  | [] => EmptyString
  | u :: r => repr_char q u ++ repr_chars q r
  end.

Definition dquote : ascii := ascii_of_nat 34.

(** [repr] of a string: single quotes unless the text holds a single quote
    and no double quote. *)
Definition repr_str (s : string) : string :=
  let q : ascii :=
    if contains_char "'" s && negb (contains_char dquote s) then dquote else "'"%char in
  String q (repr_chars q (code_points s) ++ String q EmptyString).

(** [t in s] for two strings. *)
Fixpoint is_substring (t s : string) : bool :=
  prefix t s ||
  match s with
  | EmptyString => false
  | String _ r => is_substring t r
  end.

(** The characters of [t] are, case aside, those at the head of [s]. *)
Fixpoint starts_with (t s : list N) : bool :=
  match t, s with
  | [], _ => true
  | a :: t', b :: s' => same_letter a b && starts_with t' s'
  | _ :: _, [] => false
  end.

(** [t] occurs in [s], case aside. *)
Fixpoint occurs (t s : list N) : bool :=
  starts_with t s ||
  match s with
  | [] => false
  | _ :: r => occurs t r
  end.

(** The same characters, letter case aside, one by one. *)
Definition alike (t s : list N) : Prop :=
  Forall2 (fun a b => same_letter a b = true) t s.

(** The term is a substring of the text, letter case aside. *)
Definition icontains (term s : string) : bool := occurs (points term) (points s).

(** ** Built-in operations on values *)

(** The integer a float equals, when it equals one. *)
Definition float_int (f : pyfloat) : option Z :=
  if float_whole f then float_trunc f else None.

Definition float_is (f : pyfloat) (n : Z) : bool :=
  match float_int f with
  | Some m => (m =? n)%Z
  | None => false
  end.

(** [f == g] for two floats: both zero, or the same number, which prints
    the same. *)
Definition float_eq (f g : pyfloat) : bool :=
  float_is f 0 && float_is g 0 || String.eqb (float_repr f) (float_repr g).

(** [bool(v)] *)
Definition truthy (v : pyval) : bool :=
  match v with
  | VNone => false
  | VNaN => true
  | VBool b => b
  | VInt n => negb (n =? 0)%Z
  | VFloat f => negb (float_is f 0)
  | VStr s => nonempty s
  | VList l => match l with [] => false | _ => true end
  | VDict d => match d with [] => false | _ => true end
  end.

Fixpoint py_repr (v : pyval) : string :=
  match v with
  | VNone => "None"
  | VNaN => "nan"
  | VBool b => if b then "True" else "False"
  | VInt n => str_of_Z n
  | VFloat f => float_repr f
  | VStr s => repr_str s
  | VList l => "[" ++ join ", " (map py_repr l) ++ "]"
  | VDict d =>
      "{" ++ join ", " (map (fun kv : string * pyval => let (k, x) := kv in
                                       repr_str k ++ ": " ++ py_repr x) d) ++ "}"
  end.

(** [str(v)], which is also what an f-string field [{v}] prints. *)
Definition py_str (v : pyval) : string :=
  match v with
  | VStr s => s
  | _ => py_repr v
  end.

(** [d.get(k)] on the entries of a dict; [None] when the key is absent. *)
Fixpoint dict_lookup (k : string) (d : list (string * pyval)) : option pyval :=
  match d with
  | [] => None
  | (k', v) :: r => if String.eqb k' k then Some v else dict_lookup k r
  end.

(** [d.get(k, default)] *)
Definition dict_get (d : list (string * pyval)) (k : string) (default : pyval) : pyval :=
  match dict_lookup k d with
  | Some v => v
  | None => default
  end.

Definition Z_of_bool (b : bool) : Z := if b then 1%Z else 0%Z.

(** [a == b].  Numbers compare by value, booleans being 0 and 1; [nan]
    equals nothing; dicts compare without regard to order. *)
Fixpoint py_eq (a b : pyval) : bool :=
  match a, b with
  | VNone, VNone => true
  | VBool x, VBool y => Bool.eqb x y
  | VBool x, VInt n => (Z_of_bool x =? n)%Z
  | VInt n, VBool y => (n =? Z_of_bool y)%Z
  | VInt m, VInt n => (m =? n)%Z
  | VFloat f, VFloat g => float_eq f g
  | VFloat f, VInt n => float_is f n
  | VInt n, VFloat g => float_is g n
  | VFloat f, VBool y => float_is f (Z_of_bool y)
  | VBool x, VFloat g => float_is g (Z_of_bool x)
  | VStr s, VStr t => String.eqb s t
  | VList l, VList m =>
      (fix eq_items (l m : list pyval) {struct l} : bool :=
         match l, m with
         | [], [] => true
         | x :: l', y :: m' => py_eq x y && eq_items l' m'
         | _, _ => false
         end) l m
  | VDict d, VDict e =>
      (length d =? length e)%nat &&
      (fix eq_entries (d : list (string * pyval)) : bool :=
         match d with
         | [] => true
         | (k, x) :: d' =>
             match dict_lookup k e with
             | Some y => py_eq x y
             | None => false
             end && eq_entries d'
         end) d
  | _, _ => false
  end.

Definition hashable (v : pyval) : bool :=
  match v with
  | VList _ | VDict _ => false
  | _ => true
  end.

(** [x in container] *)
Definition py_in (x container : pyval) : outcome bool :=
  match container with
  | VList l => Ok (existsb (fun y => py_eq y x) l)
  | VStr s =>
      match x with
      | VStr t => Ok (is_substring t s)
      | _ => Raise (type_error ("'in <string>' requires string as left operand, not "
                                ++ type_name x))
      end
  | VDict d =>
      if hashable x
      then Ok (existsb (fun kv => py_eq (VStr (fst kv)) x) d)
      else Raise (type_error ("unhashable type: '" ++ type_name x ++ "'"))
  | _ => Raise (type_error ("argument of type '" ++ type_name container
                            ++ "' is not iterable"))
  end.

(** [list(x)] *)
Definition py_list (x : pyval) : outcome (list pyval) :=
  match x with
  | VList l => Ok l
  | VStr s => Ok (map (fun u => VStr (utf8 u)) (code_points s))
  | VDict d => Ok (map (fun kv => VStr (fst kv)) d)
  | _ => Raise (type_error ("'" ++ type_name x ++ "' object is not iterable"))
  end.

Inductive int_literal : Type :=
  | IntValue (n : Z)
  | IntTooLong (digits : nat)
  | IntInvalid.

(** [sys.get_int_max_str_digits()] *)
Definition int_max_str_digits : nat := 4300.

(** What [int] makes of a character before it reads the literal: an ASCII
    character stays, any other whitespace becomes a space, any other
    decimal digit its ASCII digit, and anything else ["?"], which no
    literal holds. *)
Definition ascii_form (c : N) : N :=
  if (c <? 128)%N then c
  else if isspace c then 32%N
  else match decimal_digit c with
       | Some d => (48 + d)%N
       | None => 63%N
       end.

Definition digit_value (c : N) : Z := Z.of_N (c - 48).

(** The run of digits at the head of a literal, single underscores allowed
    between digits: its value, the number of digits, and what follows it. *)
Fixpoint scan_digits (s : list N) (acc : Z) (count : nat) (after_digit : bool)
  : option (Z * nat * list N) :=
  match s with
  | [] => if after_digit then Some (acc, count, []) else None
  | c :: r =>
      if is_digit c then scan_digits r (10 * acc + digit_value c)%Z (S count) true
      else if (c =? 95)%N then
        if after_digit then scan_digits r acc count false else None
      else if after_digit then Some (acc, count, s) else None
  end.

(** What [int(s)] reads in a string: blanks around, an optional sign, then
    digits only, no more of them than the interpreter's cap. *)
Definition parse_int (s : string) : int_literal :=
  let body := rstrip_by int_blank (lstrip_by int_blank (map ascii_form (points s))) in
  let (negative, digits) :=
    match body with
    | 45%N :: r => (true, r)
    | 43%N :: r => (false, r)
    | _ => (false, body)
    end in
  match scan_digits digits 0%Z 0 false with
  | Some (n, count, rest) =>
      if (int_max_str_digits <? count)%nat then IntTooLong count
      else match rest with
           | [] => IntValue (if negative then (- n)%Z else n)
           | _ => IntInvalid
           end
  | None => IntInvalid
  end.

(** [int(v)] *)
Definition py_int (v : pyval) : outcome Z :=
  match v with
  | VInt n => Ok n
  | VBool b => Ok (Z_of_bool b)
  | VStr s =>
      match parse_int s with
      | IntValue n => Ok n
      | IntTooLong count =>
          Raise (value_error
                   ("Exceeds the limit (4300 digits) for integer string conversion: value has "
                    ++ str_of_Z (Z.of_nat count)
                    ++ " digits; use sys.set_int_max_str_digits() to increase the limit"))
      | IntInvalid =>
          Raise (value_error ("invalid literal for int() with base 10: " ++ repr_str s))
      end
  | VNaN => Raise (value_error "cannot convert float NaN to integer")
  | VFloat f =>
      match float_trunc f with
      | Some n => Ok n
      | None => Raise (mk_exn OverflowError "cannot convert float infinity to integer")
      end
  | _ => Raise (type_error
                  ("int() argument must be a string, a bytes-like object or a real number, not '"
                   ++ type_name v ++ "'"))
  end.

(** ** Regular expressions: the fragment of [re] interpreted here

    A pattern made of ordinary characters and dots.  Every other special
    character makes the pattern fall outside the fragment. *)

Inductive re_op : Type :=
  | LITERAL (c : N)
  | ANY.

Definition re_special (c : N) : bool :=
  existsb (N.eqb c) (points "\.^$*+?{[|()").

Fixpoint sre_parse_points (pat : list N) : outcome (list re_op) :=
  match pat with
  | [] => Ok []
  | c :: r =>
      if (c =? 46)%N then ops <- sre_parse_points r ;; Ok (ANY :: ops)
      else if re_special c then Unmodelled
      else ops <- sre_parse_points r ;; Ok (LITERAL c :: ops)
  end.

Definition sre_parse (pat : string) : outcome (list re_op) :=
  sre_parse_points (points pat).

(** One opcode against one character, under [re.IGNORECASE]. *)
Definition op_match (o : re_op) (c : N) : bool :=
  match o with
  | LITERAL p => same_letter p c
  | ANY => negb (c =? 10)%N
  end.

Fixpoint match_here (ops : list re_op) (s : list N) : bool :=
  match ops, s with
  | [], _ => true
  | o :: ops', c :: r => op_match o c && match_here ops' r
  | _ :: _, [] => false
  end.

(** Whether the pattern matches somewhere in the text. *)
Fixpoint search_points (ops : list re_op) (s : list N) : bool :=
  match_here ops s ||
  match s with
  | [] => false
  | _ :: r => search_points ops r
  end.

(** [compiled.search(s) is not None] *)
Definition re_search (ops : list re_op) (s : string) : bool :=
  search_points ops (points s).

(** ** pandas: frames of records *)

(** One record of a frame: column label to cell. *)
Definition Row : Type := list (string * pyval).

Record DataFrame : Type := mk_df { columns : list string; records : list Row }.

(** [pd.DataFrame()] *)
Definition empty_frame : DataFrame := mk_df [] [].

(** The cell of a record under a label; a record that lacks the key reads
    as the missing value, the way frame construction fills it in. *)
Definition cell (r : Row) (c : string) : pyval := dict_get r c VNaN.

(** [c in df.columns] *)
Definition has_column (df : DataFrame) (c : string) : bool :=
  existsb (String.eqb c) (columns df).

Definition key_error (c : string) : exn := mk_exn KeyError (repr_str c).

(** [df[c]]: the column as a sequence of cells. *)
Definition df_getitem (df : DataFrame) (c : string) : outcome (list pyval) :=
  if has_column df c then Ok (map (fun r => cell r c) (records df))
  else Raise (key_error c).

Fixpoint set_cell (r : Row) (c : string) (v : pyval) : Row :=
  match r with
  | [] => [(c, v)]
  | (k, x) :: r' => if String.eqb k c then (k, v) :: r' else (k, x) :: set_cell r' c v
  end.

(** [df[c] = values], one value per record. *)
Definition df_setitem (df : DataFrame) (c : string) (values : list pyval) : DataFrame :=
  mk_df (if has_column df c then columns df else (columns df ++ [c])%list)
        (map (fun rv : Row * pyval => set_cell (fst rv) c (snd rv))
             (combine (records df) values)).

Fixpoint rename_label (mapping : list (string * string)) (c : string) : string :=
  match mapping with
  | [] => c
  | (old, new) :: m => if String.eqb old c then new else rename_label m c
  end.

(** [df.rename(columns=mapping)] *)
Definition df_rename (mapping : list (string * string)) (df : DataFrame) : DataFrame :=
  mk_df (map (rename_label mapping) (columns df))
        (map (map (fun kv : string * pyval => (rename_label mapping (fst kv), snd kv)))
             (records df)).

(** [df.empty]: no record, or no column. *)
Definition df_empty (df : DataFrame) : bool :=
  match records df, columns df with
  | _ :: _, _ :: _ => false
  | _, _ => true
  end.

(** Keeping the items a boolean mask marks. *)
Fixpoint select {A : Type} (mask : list bool) (l : list A) : list A :=
  match mask, l with
  | b :: m, x :: r => if b then x :: select m r else select m r
  | _, _ => []
  end.

(** [df[mask]] *)
Definition df_mask (df : DataFrame) (mask : list bool) : DataFrame :=
  mk_df (columns df) (select mask (records df)).

(** [df[[c1, ..., cn]]] *)
Definition df_project (df : DataFrame) (cols : list string) : outcome DataFrame :=
  match filter (fun c => negb (has_column df c)) cols with
  | [] => Ok (mk_df cols (map (fun r => map (fun c => (c, cell r c)) cols) (records df)))
  | missing =>
      Raise (mk_exn KeyError
               (repr_str
                  (if (length missing =? length cols)%nat
                   then "None of [Index(" ++ py_repr (VList (map VStr cols))
                        ++ ", dtype='object')] are in the [columns]"
                   else py_repr (VList (map VStr missing)) ++ " not in index")))
  end.

(** [row[c]] on a record that [iterrows] yields. *)
Definition row_getitem (df : DataFrame) (r : Row) (c : string) : outcome pyval :=
  if has_column df c then Ok (cell r c) else Raise (key_error c).

(** [row.get(c, default)] *)
Definition row_get (df : DataFrame) (r : Row) (c : string) (default : pyval) : pyval :=
  if has_column df c then cell r c else default.

(** [pd.isna(x)] as an [if] tests it.  On a list pandas answers element by
    element; that answer is not interpreted. *)
Definition pd_isna (x : pyval) : outcome bool :=
  match x with
  | VNone | VNaN => Ok true
  | VList _ => Unmodelled
  | _ => Ok false
  end.

(** [series.astype(str)] *)
Definition astype_str (cells : list pyval) : list string := map py_str cells.

(** [series.str.contains(pat, case=False, na=False)]: [pat] is compiled as a
    regular expression (pandas' default) and searched in every text. *)
Definition str_contains (pat : string) (texts : list string) : outcome (list bool) :=
  ops <- sre_parse pat ;; Ok (map (re_search ops) texts).


Definition is_nan (v : pyval) : bool :=
  match v with VNaN => true | _ => false end.

(** Two values as keys of pandas' hash table of objects: equal when [==]
    says so, and one missing-value float equals another. *)
Definition same_key (a b : pyval) : bool := py_eq a b || is_nan a && is_nan b.

(** [series.isin(values)] on a column of objects: each cell is looked up in
    a hash table of the values.  The answer is interpreted when the values
    are a list and neither a value nor a cell is itself a list or a dict. *)
Definition isin (cells : list pyval) (values : pyval) : outcome (list bool) :=
  match values with
  | VList l =>
      if forallb hashable l && forallb hashable cells
      then Ok (map (fun x => existsb (fun y => same_key y x) l) cells)
      else Unmodelled
  | VDict _ => Unmodelled
  | _ => Raise (type_error
                  ("only list-like objects are allowed to be passed to isin(), you passed a `"
                   ++ type_name values ++ "`"))
  end.

(** ** Streamlit: the trace of what a run displays *)

Inductive st_event : Type :=
  | st_title (text : string)
  | st_header (text : string)
  | st_subheader (text : string)
  | st_markdown (text : string)
  | st_write (text : string)
  | st_info (text : string)
  | st_warning (text : string)
  | st_error (text : string)
  | st_dataframe (df : DataFrame).

(** A script fragment: what it displayed, and how it ended. *)
Definition ui (A : Type) : Type := (list st_event * outcome A)%type.

Definition ui_ret {A : Type} (a : A) : ui A := ([], Ok a).

Definition ui_bind {A B : Type} (m : ui A) (k : A -> ui B) : ui B :=
  match m with
  | (w, Ok a) => let (w', r) := k a in ((w ++ w')%list, r)
  | (w, Raise e) => (w, Raise e)
  | (w, Unmodelled) => (w, Unmodelled)
  end.

Definition lift {A : Type} (m : outcome A) : ui A := ([], m).

Definition emit (e : st_event) : ui unit := ([e], Ok tt).

(** [try: m  except Exception as e: h e], around displaying code. *)
Definition ui_try {A : Type} (m : ui A) (h : exn -> ui A) : ui A :=
  match m with
  | (w, Raise e) => let (w', r) := h e in ((w ++ w')%list, r)
  | _ => m
  end.

Declare Scope ui_scope.
Delimit Scope ui_scope with ui.
Notation "x <- m ;; k" := (ui_bind m (fun x => k))
  (at level 61, m at next level, right associativity) : ui_scope.
Notation "m ;; k" := (ui_bind m (fun _ => k))
  (at level 61, right associativity) : ui_scope.

Fixpoint for_each {A : Type} (l : list A) (body : A -> ui unit) : ui unit :=
  match l with
  | [] => ui_ret tt
  | a :: r => (body a ;; for_each r body)%ui
  end.

Definition str_of_nat (n : nat) : string := str_of_Z (Z.of_nat n).

(** ** The application ([app.py]) *)

Definition PRODUCT_API_URL : string :=
  "https://api.aplan.co.uk/api/producttypecodeitems".
Definition BRANCH_API_URL : string :=
  "https://api.aplan.co.uk/api/branches?includeNonLocalBranches=true&includeNonTradingBranches=true".

(** *** Normalisation (inside [fetch_data]) *)

(** [normalize_codes(x)] *)
Definition normalize_codes (x : pyval) : outcome pyval :=
  match x with
  | VList _ => Ok x
  | VStr s =>
      Ok (VList (map VStr (filter nonempty (map strip (split "," s)))))
  | _ =>
      na <- pd_isna x ;;
      if na then Ok (VList [])
      else try_except (l <- py_list x ;; Ok (VList l))
                      (fun _ => Ok (VList []))
  end.

Definition product_renames : list (string * string) :=
  [("code", "product_code"); ("detail", "product_name")].

Definition branch_renames : list (string * string) :=
  [("name", "branch_name"); ("manager", "branch_manager");
   ("postalAddress", "address"); ("openingTimes", "opening_hours");
   ("productCodes", "product_codes")].

(** The [if "product_codes" in df_branches.columns: ... else: ...] step, on
    a frame that carries the label at most once. *)
Definition with_product_codes (df_branches : DataFrame) : outcome DataFrame :=
  if has_column df_branches "product_codes"
  then raw <- df_getitem df_branches "product_codes" ;;
       codes <- mapM normalize_codes raw ;;
       Ok (df_setitem df_branches "product_codes" codes)
  else Ok (df_setitem df_branches "product_codes"
             (map (fun _ => VList []) (records df_branches))).

(** How many columns of the frame carry the label. *)
Definition label_count (df : DataFrame) (c : string) : nat :=
  length (filter (String.eqb c) (columns df)).

Definition ambiguous_truth : exn :=
  value_error
    "The truth value of a Series is ambiguous. Use a.empty, a.bool(), a.item(), a.any() or a.all().".

(** [pd.isna] of one cell of a column. *)
Definition isna_cell (v : pyval) : bool :=
  match v with VNone | VNaN => true | _ => false end.

(** [bool(series)], which an [if] asks of its condition: pandas refuses to
    answer, whatever the cells. *)
Definition series_truth (cells : list bool) : outcome bool :=
  Raise ambiguous_truth.

(** [normalize_codes(x)] when [x] is a whole column (a pandas Series), not
    a cell.  A Series is neither a list nor a string, so the test
    [if pd.isna(x)] is reached; [pd.isna] answers cell by cell.  The test
    stands before the [try], so what it raises leaves the function. *)
Definition normalize_codes_of_column (column : list pyval) : outcome pyval :=
  na <- series_truth (map isna_cell column) ;;
  if na then Ok (VList [])
  else try_except (Ok (VList column)) (fun _ => Ok (VList [])).

(** The same step on the frame that renaming leaves, whatever its labels.
    Renaming [productCodes] in a frame that already has a [product_codes]
    column leaves two columns of that label: [df_branches["product_codes"]]
    is then a frame, and [apply] hands [normalize_codes] its columns one by
    one.  (On a frame without records [apply] does not call the function;
    that case, and what would follow the call, are not interpreted.) *)
Definition normalize_branch_codes (df_branches : DataFrame) : outcome DataFrame :=
  if (2 <=? label_count df_branches "product_codes")%nat
  then match records df_branches with
       | [] => Unmodelled
       | _ :: _ =>
           _ <- normalize_codes_of_column
                  (map (fun r => cell r "product_codes") (records df_branches)) ;;
           Unmodelled
       end
  else with_product_codes df_branches.

Section Fetch.

(** The two collaborators of the download: [requests.get(url).json()] and
    the frame constructor [pd.DataFrame(data)].  Either may raise. *)
Variable requests_get_json : string -> outcome pyval.
Variable pd_DataFrame : pyval -> outcome DataFrame.

(** The body of the [try] block of [fetch_data]. *)
Definition fetch_body : outcome (DataFrame * DataFrame) :=
  products <- requests_get_json PRODUCT_API_URL ;;
  branches <- requests_get_json BRANCH_API_URL ;;
  df_products <- pd_DataFrame products ;;
  df_branches <- pd_DataFrame branches ;;
  let df_products := df_rename product_renames df_products in
  let df_branches := df_rename branch_renames df_branches in
  df_branches <- normalize_branch_codes df_branches ;;
  Ok (df_products, df_branches).

(** [fetch_data()] *)
Definition fetch_data : ui (DataFrame * DataFrame) :=
  ui_try (lift fetch_body)
         (fun e =>
            (emit (st_error ("Error fetching data: " ++ exn_text e)) ;;
             ui_ret (empty_frame, empty_frame))%ui).

End Fetch.

(** *** Opening hours *)

Definition is_none (v : pyval) : bool :=
  match v with VNone => true | _ => false end.

(** [a or b] *)
Definition py_or (a b : pyval) : pyval := if truthy a then a else b.

(** The en dash between the two times. *)
Definition en_dash : string := "–".

(** [f"{int(h):02d}:{int(m or 0):02d}"] *)
Definition clock (h m : pyval) : outcome string :=
  hh <- py_int h ;;
  mm <- py_int (py_or m (VInt 0)) ;;
  Ok (format_02d hh ++ ":" ++ format_02d mm).

(** One turn of the loop over the entries: the new [hours_list]. *)
Definition hours_step (hours_list : list string) (entry : pyval) : outcome (list string) :=
  match entry with
  | VDict e =>
      let day := dict_get e "day" (VStr "") in
      let open_h := dict_get e "openingHour" VNone in
      let open_m := dict_get e "openingMinute" (VInt 0) in
      let close_h := dict_get e "closingHour" VNone in
      let close_m := dict_get e "closingMinute" (VInt 0) in
      if is_none open_h || is_none close_h then Ok hours_list
      else
        try_except
          (open_time <- clock open_h open_m ;;
           close_time <- clock close_h close_m ;;
           if truthy day
           then Ok (app hours_list [py_str day ++ ": " ++ open_time ++ en_dash ++ close_time])
           else Ok (app hours_list [open_time ++ en_dash ++ close_time]))
          (fun _ => Ok hours_list)
  | _ => Ok hours_list
  end.

Fixpoint hours_loop (hours_list : list string) (entries : list pyval) : outcome (list string) :=
  match entries with
  | [] => Ok hours_list
  | entry :: rest => hl <- hours_step hours_list entry ;; hours_loop hl rest
  end.

(** [format_opening_hours(opening_hours_raw)] *)
Definition format_opening_hours (opening_hours_raw : pyval) : outcome string :=
  if negb (truthy opening_hours_raw) then Ok "N/A"
  else
    match opening_hours_raw with
    | VStr s => Ok s
    | VList entries =>
        hours_list <- hours_loop [] entries ;;
        match hours_list with
        | _ :: _ => Ok (join ", " hours_list)
        | [] => Ok "N/A"
        end
    | _ => Ok (py_str opening_hours_raw)
    end.

(** The text [format_opening_hours] gives for a value; it gives one for
    every value (see the properties). *)
Definition hours_shown (raw : pyval) : string :=
  match format_opening_hours raw with
  | Ok text => text
  | _ => "N/A"
  end.

(** *** Search *)

Inductive mode : Type :=
  | ProductToBranches
  | BranchToProducts.

(** The mask that selects [matched_products] in the product search. *)
Definition product_search_mask (search_input : string) (df_products : DataFrame)
  : outcome (list bool) :=
  names <- df_getitem df_products "product_name" ;;
  by_name <- str_contains search_input (astype_str names) ;;
  codes <- df_getitem df_products "product_code" ;;
  by_code <- str_contains search_input (astype_str codes) ;;
  Ok (map (fun p : bool * bool => fst p || snd p) (combine by_name by_code)).

(** [branch_has_code(codes)], for the current [product_code]. *)
Definition branch_has_code (product_code codes : pyval) : outcome bool :=
  try_except (py_in product_code codes) (fun _ => Ok false).

(** [df_branches[df_branches["product_codes"].apply(branch_has_code)]] *)
Definition matched_branches_of (product_code : pyval) (df_branches : DataFrame)
  : outcome DataFrame :=
  codes <- df_getitem df_branches "product_codes" ;;
  mask <- mapM (branch_has_code product_code) codes ;;
  Ok (df_mask df_branches mask).

Definition display_columns : list string :=
  ["branch_name"; "branch_manager"; "address"; "opening_hours_display"].

(** The table of branches shown under a product. *)
Definition display_branches (matched_branches : DataFrame) : outcome DataFrame :=
  hours <- df_getitem matched_branches "opening_hours" ;;
  shown <- mapM format_opening_hours hours ;;
  let display := df_setitem matched_branches "opening_hours_display" (map VStr shown) in
  table <- df_project display display_columns ;;
  Ok (df_rename [("opening_hours_display", "opening_hours")] table).

(** The body of the loop over [matched_products.iterrows()]. *)
Definition product_panel (matched_products df_branches : DataFrame) (product_row : Row)
  : ui unit :=
  (product_code <- lift (row_getitem matched_products product_row "product_code") ;;
   product_name <- lift (row_getitem matched_products product_row "product_name") ;;
   emit (st_markdown ("### " ++ py_str product_name ++ " (`" ++ py_str product_code ++ "`)")) ;;
   matched_branches <- lift (matched_branches_of product_code df_branches) ;;
   if negb (df_empty matched_branches)
   then
     emit (st_write ("**Allocated Branches:** "
                     ++ str_of_nat (length (records matched_branches)) ++ " found.")) ;;
     table <- lift (display_branches matched_branches) ;;
     emit (st_dataframe table)
   else emit (st_warning "No branches found for this product."))%ui.

(** The [Product → Branches] branch of the script. *)
Definition product_to_branches (search_input : string) (df_products df_branches : DataFrame)
  : ui unit :=
  (emit (st_subheader "🔍 Search by Product") ;;
   if nonempty search_input
   then
     mask <- lift (product_search_mask search_input df_products) ;;
     let matched_products := df_mask df_products mask in
     if negb (df_empty matched_products)
     then for_each (records matched_products) (product_panel matched_products df_branches)
     else emit (st_warning "No products found matching your search.")
   else emit (st_info "Enter a product name or code above to search."))%ui.

(** The mask that selects [matched_branches] in the branch search. *)
Definition branch_search_mask (search_input : string) (df_branches : DataFrame)
  : outcome (list bool) :=
  names <- df_getitem df_branches "branch_name" ;;
  str_contains search_input (astype_str names).

(** [df_products[df_products["product_code"].isin(branch_products)]] *)
Definition matched_products_of (branch_products : pyval) (df_products : DataFrame)
  : outcome DataFrame :=
  codes <- df_getitem df_products "product_code" ;;
  mask <- isin codes branch_products ;;
  Ok (df_mask df_products mask).

(** The body of the loop over [matched_branches.iterrows()]. *)
Definition branch_panel (matched_branches df_products : DataFrame) (branch_row : Row)
  : ui unit :=
  (branch_name <- lift (row_getitem matched_branches branch_row "branch_name") ;;
   emit (st_markdown ("### " ++ py_str branch_name)) ;;
   emit (st_write ("**Manager:** "
                   ++ py_str (row_get matched_branches branch_row "branch_manager" (VStr "N/A")))) ;;
   emit (st_write ("**Address:** "
                   ++ py_str (row_get matched_branches branch_row "address" (VStr "N/A")))) ;;
   hours <- lift (format_opening_hours
                    (row_get matched_branches branch_row "opening_hours" VNone)) ;;
   emit (st_write ("**Opening Hours:** " ++ hours)) ;;
   let branch_products :=
     py_or (row_get matched_branches branch_row "product_codes" VNone) (VList []) in
   matched_products <- lift (matched_products_of branch_products df_products) ;;
   if negb (df_empty matched_products)
   then
     emit (st_write ("**Products allocated to this branch:** "
                     ++ str_of_nat (length (records matched_products)))) ;;
     table <- lift (df_project matched_products ["product_code"; "product_name"]) ;;
     emit (st_dataframe table)
   else emit (st_warning "No products found for this branch."))%ui.

(** The [Branch → Products] branch of the script. *)
Definition branch_to_products (search_input : string) (df_products df_branches : DataFrame)
  : ui unit :=
  (emit (st_subheader "🏢 Search by Branch") ;;
   if nonempty search_input
   then
     mask <- lift (branch_search_mask search_input df_branches) ;;
     let matched_branches := df_mask df_branches mask in
     if negb (df_empty matched_branches)
     then for_each (records matched_branches) (branch_panel matched_branches df_products)
     else emit (st_warning "No branches found matching your search.")
   else emit (st_info "Enter a branch name above to search."))%ui.

Section Script.

Variable requests_get_json : string -> outcome pyval.
Variable pd_DataFrame : pyval -> outcome DataFrame.

(** One run of the script for a choice of the two sidebar widgets.  Page
    configuration and styling are left out; [st.stop()] ends the run. *)
Definition app (search_mode : mode) (search_input : string) : ui unit :=
  (emit (st_title "🏢 Branch & ProductCode Mapper") ;;
   frames <- fetch_data requests_get_json pd_DataFrame ;;
   let (df_products, df_branches) := frames : DataFrame * DataFrame in
   if df_empty df_products || df_empty df_branches
   then emit (st_error "Could not load data from one or both APIs.")
   else
     emit (st_header "Search Options") ;;
     match search_mode with
     | ProductToBranches => product_to_branches search_input df_products df_branches
     | BranchToProducts => branch_to_products search_input df_products df_branches
     end)%ui.

End Script.

(** ** The specification's wording, for comparison with the code *)

Module Spec.

(** *** Code lists: the four recognised shapes *)

Inductive codes_shape : Type :=
  | Sequence (l : list pyval)
  | Delimited (s : string)
  | Absent
  | Exotic (x : pyval).

Definition codes_shape_of (x : pyval) : codes_shape :=
  match x with
  | VList l => Sequence l
  | VStr s => Delimited s
  | VNone | VNaN => Absent
  | _ => Exotic x
  end.

Definition normalize_codes (x : pyval) : list pyval :=
  match codes_shape_of x with
  | Sequence l => l
  | Delimited s => map VStr (filter nonempty (map strip (split "," s)))
  | Absent => []
  | Exotic y => match py_list y with Ok l => l | _ => [] end
  end.

(** *** Opening hours *)

(** An hour of the 24-hour clock. *)
Definition hour_of (v : pyval) : option nat :=
  match v with
  | VInt n => if (0 <=? n)%Z && (n <=? 23)%Z then Some (Z.to_nat n) else None
  | _ => None
  end.

(** A minute of the hour; 0 when the key is absent or its value is null. *)
Definition minute_of (e : list (string * pyval)) (k : string) : option nat :=
  match dict_lookup k e with
  | None | Some VNone => Some 0
  | Some (VInt n) => if (0 <=? n)%Z && (n <=? 59)%Z then Some (Z.to_nat n) else None
  | Some _ => None
  end.

Definition two_digits (n : nat) : string :=
  String (ascii_of_nat (48 + n / 10)) (String (ascii_of_nat (48 + n mod 10)) EmptyString).

(** [HH:MM], zero-padded. *)
Definition hhmm (h m : nat) : string := two_digits h ++ ":" ++ two_digits m.

(** ["<day>: "] when the day is not empty. *)
Definition day_prefix (e : list (string * pyval)) : option string :=
  match dict_lookup "day" e with
  | None | Some VNone => Some ""
  | Some (VStr d) => Some (if nonempty d then d ++ ": " else "")
  | Some _ => None
  end.

(** A field that is present and not null. *)
Definition given (e : list (string * pyval)) (k : string) : option pyval :=
  match dict_lookup k e with
  | Some VNone => None
  | other => other
  end.

(** What becomes of one per-day entry: it is rendered, it is skipped
    because it gives no opening or no closing hour, or it is malformed
    (and skipped as well). *)
Inductive entry_reading : Type :=
  | Rendered (text : string)
  | Skipped
  | Malformed.

Definition read_entry (entry : pyval) : entry_reading :=
  match entry with
  | VDict e =>
      match given e "openingHour", given e "closingHour" with
      | Some oh, Some ch =>
          match day_prefix e, hour_of oh, minute_of e "openingMinute",
                hour_of ch, minute_of e "closingMinute" with
          | Some d, Some h1, Some m1, Some h2, Some m2 =>
              Rendered (d ++ hhmm h1 m1 ++ en_dash ++ hhmm h2 m2)
          | _, _, _, _, _ => Malformed
          end
      | _, _ => Skipped
      end
  | _ => Skipped
  end.

Fixpoint rendered (entries : list pyval) : list string :=
  match entries with
  | [] => []
  | entry :: rest =>
      match read_entry entry with
      | Rendered t => t :: rendered rest
      | _ => rendered rest
      end
  end.

Definition format_opening_hours (raw : pyval) : string :=
  if negb (truthy raw) then "N/A"
  else
    match raw with
    | VStr s => s
    | VList entries =>
        match rendered entries with
        | [] => "N/A"
        | texts => join ", " texts
        end
    | _ => py_str raw
    end.


(** *** Queries *)

Definition is_null (v : pyval) : bool :=
  match v with VNone | VNaN => true | _ => false end.

(** A field contains the term, case-insensitively; a missing or null field
    does not match. *)
Definition field_contains (term : string) (v : pyval) : bool :=
  if is_null v then false else icontains term (py_str v).

Definition product_matches (term : string) (p : Row) : bool :=
  field_contains term (cell p "product_name")
  || field_contains term (cell p "product_code").

Definition branch_matches (term : string) (b : Row) : bool :=
  field_contains term (cell b "branch_name").

(** Exact membership of a code in a code sequence. *)
Definition code_member (code codes : pyval) : bool :=
  match codes with
  | VList l => existsb (fun c => py_eq c code) l
  | _ => false
  end.

Definition allocated (p b : Row) : bool :=
  code_member (cell p "product_code") (cell b "product_codes").

Definition searchByProduct (term : string) (products branches : list Row)
  : list (Row * list Row) :=
  map (fun p => (p, filter (fun b => allocated p b) branches))
      (filter (product_matches term) products).

Definition searchByBranch (term : string) (products branches : list Row)
  : list (Row * list Row) :=
  map (fun b => (b, filter (fun p => allocated p b) products))
      (filter (branch_matches term) branches).

(** What the shell shows for one product and its branches. *)
Definition branch_table (bs : list Row) : DataFrame :=
  mk_df ["branch_name"; "branch_manager"; "address"; "opening_hours"]
        (map (fun b => [("branch_name", cell b "branch_name");
                        ("branch_manager", cell b "branch_manager");
                        ("address", cell b "address");
                        ("opening_hours", VStr (hours_shown (cell b "opening_hours")))])
             bs).

Definition product_events (res : Row * list Row) : list st_event :=
  let (p, bs) := res in
  st_markdown ("### " ++ py_str (cell p "product_name")
               ++ " (`" ++ py_str (cell p "product_code") ++ "`)")
  :: match bs with
     | [] => [st_warning "No branches found for this product."]
     | _ :: _ =>
         [st_write ("**Allocated Branches:** " ++ str_of_nat (length bs) ++ " found.");
          st_dataframe (branch_table bs)]
     end.

Definition searchByProduct_events (term : string) (products branches : list Row)
  : list st_event :=
  st_subheader "🔍 Search by Product"
  :: match searchByProduct term products branches with
     | [] => [st_warning "No products found matching your search."]
     | found => flat_map product_events found
     end.

(** What the shell shows for one branch and its products. *)
Definition product_table (ps : list Row) : DataFrame :=
  mk_df ["product_code"; "product_name"]
        (map (fun p => [("product_code", cell p "product_code");
                        ("product_name", cell p "product_name")]) ps).

Definition branch_events (res : Row * list Row) : list st_event :=
  let (b, ps) := res in
  [st_markdown ("### " ++ py_str (cell b "branch_name"));
   st_write ("**Manager:** " ++ py_str (cell b "branch_manager"));
   st_write ("**Address:** " ++ py_str (cell b "address"));
   st_write ("**Opening Hours:** " ++ hours_shown (cell b "opening_hours"))]
  ++ match ps with
     | [] => [st_warning "No products found for this branch."]
     | _ :: _ =>
         [st_write ("**Products allocated to this branch:** " ++ str_of_nat (length ps));
          st_dataframe (product_table ps)]
     end.

Definition searchByBranch_events (term : string) (products branches : list Row)
  : list st_event :=
  st_subheader "🏢 Search by Branch"
  :: match searchByBranch term products branches with
     | [] => [st_warning "No branches found matching your search."]
     | found => flat_map branch_events found
     end.

End Spec.

(** ** Conditions on search terms and snapshots *)

(** A term without characters that are special in a regular expression. *)
Definition plain_term (term : string) : bool :=
  forallb (fun c => negb (re_special c)) (points term).

Definition has_columns (df : DataFrame) (cols : list string) : bool :=
  forallb (has_column df) cols.

Definition product_schema : list string := ["product_code"; "product_name"].

Definition branch_schema : list string :=
  ["branch_name"; "branch_manager"; "address"; "opening_hours"; "product_codes"].

Definition is_list (v : pyval) : bool :=
  match v with VList _ => true | _ => false end.

(** A snapshot as [fetch_data] leaves it: the renamed columns are there and
    every [product_codes] cell is a list. *)
Definition normalized_snapshot (df_products df_branches : DataFrame) : bool :=
  has_columns df_products product_schema
  && has_columns df_branches branch_schema
  && forallb (fun b => is_list (cell b "product_codes")) (records df_branches).

(** No record has a missing or null value under the label. *)
Definition all_present (df : DataFrame) (c : string) : bool :=
  forallb (fun r => negb (Spec.is_null (cell r c))) (records df).


(** A single value with a value of its own: a string, a number, a boolean
    or null; not a list, not a dict, not the missing-value float. *)
Definition atom (v : pyval) : bool := hashable v && negb (is_nan v).

Definition list_of_atoms (v : pyval) : bool :=
  match v with VList l => forallb atom l | _ => false end.

(** Code lists hold single values, and no product code is a list or a
    dict. *)
Definition single_codes (df_products df_branches : DataFrame) : bool :=
  forallb (fun b => list_of_atoms (cell b "product_codes")) (records df_branches)
  && forallb (fun p => hashable (cell p "product_code")) (records df_products).

(** The labels are pairwise different. *)
Fixpoint distinct (labels : list string) : bool :=
  match labels with
  | [] => true
  | c :: rest => negb (existsb (String.eqb c) rest) && distinct rest
  end.

(** Every key of the record is a label of the frame. *)
Definition keys_in (df : DataFrame) (r : Row) : bool :=
  forallb (fun kv : string * pyval => has_column df (fst kv)) r.

(** A frame as the constructor builds it from records: its labels are
    pairwise different and every key of a record is one of them. *)
Definition built_frame (df : DataFrame) : bool :=
  distinct (columns df) && forallb (keys_in df) (records df).

(** ** Sample data *)

Definition sample_products : DataFrame :=
  mk_df ["product_code"; "product_name"]
        [[("product_code", VStr "A"); ("product_name", VStr "Car")];
         [("product_code", VStr "B"); ("product_name", VStr "Home")]].

Definition sample_raw_branches : DataFrame :=
  mk_df ["name"; "manager"; "postalAddress"; "openingTimes"; "productCodes"]
        [[("name", VStr "Leeds"); ("manager", VStr "Ann");
          ("postalAddress", VStr "1 High St");
          ("openingTimes",
           VList [VDict [("day", VStr "Mon"); ("openingHour", VInt 9);
                         ("closingHour", VInt 17)]]);
          ("productCodes", VStr "A,B")];
         [("name", VStr "LEEDS East"); ("manager", VStr "Bob");
          ("postalAddress", VStr "2 Low St"); ("openingTimes", VStr "9-5");
          ("productCodes", VList [VStr "B"])]].

Definition sample_branches : DataFrame :=
  match with_product_codes (df_rename branch_renames sample_raw_branches) with
  | Ok df => df
  | _ => empty_frame
  end.


(** A product of which only numbers are known. *)
Definition numeric_products : DataFrame :=
  mk_df ["product_code"; "product_name"]
        [[("product_code", VInt 5); ("product_name", VInt 7)]].

(** A product whose record came without a name. *)
Definition unnamed_products : DataFrame :=
  mk_df ["product_code"; "product_name"] [[("product_code", VStr "B")]].

(** A branch whose record came with a null name. *)
Definition unnamed_branches : DataFrame :=
  mk_df ["branch_name"; "branch_manager"; "address"; "opening_hours"; "product_codes"]
        [[("branch_name", VNone); ("branch_manager", VStr "Cy");
          ("address", VStr "3 Mid St"); ("opening_hours", VStr "9-5");
          ("product_codes", VList [VStr "A"])]].


(** The code list [with_product_codes] gives a record of [df]. *)
Definition codes_for (df : DataFrame) (r : Row) : pyval :=
  if has_column df "product_codes"
  then VList (Spec.normalize_codes (cell r "product_codes"))
  else VList [].

(** An upstream that cannot be reached, and one that answers with a value
    no frame can be built from. *)
Definition unreachable (url : string) : outcome pyval :=
  Raise (mk_exn UpstreamError ("Max retries exceeded with url: " ++ url)).

Definition answers_number (url : string) : outcome pyval := Ok (VInt 0).

Definition frame_of_records (data : pyval) : outcome DataFrame :=
  match data with
  | VList _ => Ok empty_frame
  | _ => Raise (mk_exn ValueError "DataFrame constructor not properly called!")
  end.

Fixpoint last_error {A : Type} (l : list A) : option A :=
  match l with
  | [] => None
  | [a] => Some a
  | _ :: r => last_error r
  end.

Definition unblank (c : option uchar) : bool :=
  match c with
  | Some u => negb (blank u)
  | None => true
  end.

(** [t] is [s] without the whitespace characters at its two ends. *)
Definition trimmed (s t : string) : Prop :=
  exists pre kept post,
    code_points s = (pre ++ kept ++ post)%list
    /\ t = text_of kept
    /\ s = text_of pre ++ t ++ text_of post
    /\ forallb blank pre = true
    /\ forallb blank post = true
    /\ unblank (hd_error kept) = true
    /\ unblank (last_error kept) = true.

(** The no-break space (U+00A0), the em space (U+2003) and the Kelvin sign
    (U+212A), written byte by byte. *)
Definition no_break_space : string :=
  String (ascii_of_nat 194) (String (ascii_of_nat 160) EmptyString).

Definition em_space : string :=
  String (ascii_of_nat 226) (String (ascii_of_nat 128) (String (ascii_of_nat 131) EmptyString)).

Definition kelvin_sign : string :=
  String (ascii_of_nat 226) (String (ascii_of_nat 132) (String (ascii_of_nat 170) EmptyString)).

(** ** The loop of [format_opening_hours], entry by entry *)

(** A per-day entry that is a record with both hours given. *)
Definition has_hours (entry : pyval) : bool :=
  match entry with
  | VDict e =>
      negb (is_none (dict_get e "openingHour" VNone))
      && negb (is_none (dict_get e "closingHour" VNone))
  | _ => false
  end.

(** What [int] reads in a value, when it reads one. *)
Definition int_read (v : pyval) : option Z :=
  match py_int v with
  | Ok n => Some n
  | _ => None
  end.

(** The minute under a key: what [int] reads there, 0 standing for an
    absent key and for every falsy value. *)
Definition minute_read (e : list (string * pyval)) (k : string) : option Z :=
  int_read (py_or (dict_get e k (VInt 0)) (VInt 0)).

Definition clock_text (h m : Z) : string := format_02d h ++ ":" ++ format_02d m.

Definition day_label (e : list (string * pyval)) : string :=
  let day := dict_get e "day" (VStr "") in
  if truthy day then py_str day ++ ": " else "".

(** The text the loop adds for one entry, if it adds one. *)
Definition entry_text (entry : pyval) : option string :=
  match entry with
  | VDict e =>
      if has_hours entry then
        match int_read (dict_get e "openingHour" VNone), minute_read e "openingMinute",
              int_read (dict_get e "closingHour" VNone), minute_read e "closingMinute" with
        | Some h1, Some m1, Some h2, Some m2 =>
            Some (day_label e ++ clock_text h1 m1 ++ en_dash ++ clock_text h2 m2)
        | _, _, _, _ => None
        end
      else None
  | _ => None
  end.

Definition entry_texts (entries : list pyval) : list string :=
  flat_map (fun entry => match entry_text entry with
                         | Some t => [t]
                         | None => []
                         end) entries.

(** ** Further definitions, for the properties of the script as a whole *)

(** A record after [df.rename(columns=mapping)]. *)
Definition rename_row (mapping : list (string * string)) (r : Row) : Row :=
  map (fun kv : string * pyval => (rename_label mapping (fst kv), snd kv)) r.

(** The record has none of the labels as a key. *)
Definition lacks (r : Row) (labels : list string) : bool :=
  forallb (fun c => match dict_lookup c r with None => true | Some _ => false end) labels.

(** A code as a comma-separated string can carry it: not empty, without a
    comma, without a whitespace character at either end. *)
Definition clean_code (p : string) : bool :=
  nonempty p && negb (contains_char "," p)
  && unblank (hd_error (code_points p)) && unblank (last_error (code_points p)).

Fixpoint add_labels (seen : list string) (entries : list (string * pyval)) : list string :=
  match entries with
  | [] => seen
  | (k, _) :: rest =>
      add_labels (if existsb (String.eqb k) seen then seen else (seen ++ [k])%list) rest
  end.

Fixpoint objects_of (items : list pyval) : option (list Row) :=
  match items with
  | [] => Some []
  | VDict d :: rest => option_map (cons d) (objects_of rest)
  | _ :: _ => None
  end.

(** A frame constructor for a list of JSON objects, one column per key in
    order of first appearance; it stands for [pd.DataFrame] in examples. *)
Definition frame_of_objects (data : pyval) : outcome DataFrame :=
  match data with
  | VList items =>
      match objects_of items with
      | Some rows => Ok (mk_df (fold_left add_labels rows []) rows)
      | None => Raise (mk_exn ValueError "DataFrame constructor not properly called!")
      end
  | _ => Raise (mk_exn ValueError "DataFrame constructor not properly called!")
  end.

Definition sample_products_json : pyval :=
  VList [VDict [("code", VStr "A"); ("detail", VStr "Car")];
         VDict [("code", VStr "B"); ("detail", VStr "Home")]].

Definition sample_branches_json : pyval :=
  VList [VDict [("name", VStr "Leeds"); ("manager", VStr "Ann");
                ("postalAddress", VStr "1 High St"); ("openingTimes", VStr "9-5");
                ("productCodes", VStr "A,B")];
         VDict [("name", VStr "York"); ("manager", VStr "Bob");
                ("postalAddress", VStr "2 Low St"); ("openingTimes", VNone);
                ("productCodes", VList [VStr "B"])]].

(** An upstream that serves the sample lists, one that serves two empty
    lists, and one whose branch list is empty. *)
Definition serves_samples (url : string) : outcome pyval :=
  if String.eqb url PRODUCT_API_URL then Ok sample_products_json
  else Ok sample_branches_json.

Definition serves_nothing (url : string) : outcome pyval := Ok (VList []).

(** The frames built from the sample lists. *)
Definition sample_products_frame : DataFrame :=
  match frame_of_objects sample_products_json with Ok df => df | _ => empty_frame end.

Definition sample_branches_frame : DataFrame :=
  match frame_of_objects sample_branches_json with Ok df => df | _ => empty_frame end.

(** Branches of which only the name and the codes are known. *)
Definition bare_branches : DataFrame :=
  mk_df ["branch_name"; "product_codes"]
        [[("branch_name", VStr "Leeds"); ("product_codes", VList [VStr "A"])];
         [("branch_name", VStr "York"); ("product_codes", VList [])]].

(** Frames as the upstream gives them, before any renaming. *)
Definition raw_products : DataFrame :=
  mk_df ["code"; "detail"] [[("code", VStr "A"); ("detail", VStr "Car")]].

(** A branch list whose record carries the codes under both spellings of
    the key, and an upstream that serves it. *)
Definition clashing_branches_json : pyval :=
  VList [VDict [("name", VStr "Leeds"); ("productCodes", VStr "A,B");
                ("product_codes", VStr "C")]].

Definition clashing_branches_frame : DataFrame :=
  match frame_of_objects clashing_branches_json with Ok df => df | _ => empty_frame end.

Definition serves_clash (url : string) : outcome pyval :=
  if String.eqb url PRODUCT_API_URL then Ok sample_products_json
  else Ok clashing_branches_json.

(** A product without a code, and a branch whose code list holds the
    missing-value float. *)
Definition uncoded_products : DataFrame :=
  mk_df ["product_code"; "product_name"] [[("product_name", VStr "Car")]].

Definition unknown_code_branches : DataFrame :=
  mk_df ["branch_name"; "branch_manager"; "address"; "opening_hours"; "product_codes"]
        [[("branch_name", VStr "Hull"); ("branch_manager", VStr "Di");
          ("address", VStr "4 Dock St"); ("opening_hours", VStr "9-5");
          ("product_codes", VList [VNaN])]].

(** Products and branches whose codes are numbers. *)
Definition numbered_products : DataFrame :=
  mk_df ["product_code"; "product_name"]
        [[("product_code", VInt 1); ("product_name", VStr "Car")];
         [("product_code", VInt 3); ("product_name", VStr "Home")]].

Definition numbered_branches : DataFrame :=
  mk_df ["branch_name"; "branch_manager"; "address"; "opening_hours"; "product_codes"]
        [[("branch_name", VStr "York"); ("branch_manager", VStr "Bob");
          ("address", VStr "2 Low St"); ("opening_hours", VNone);
          ("product_codes", VList [VInt 1; VInt 2])]].

(** Products and branches named with letters beyond ASCII. *)
Definition accented_products : DataFrame :=
  mk_df ["product_code"; "product_name"]
        [[("product_code", VStr "A"); ("product_name", VStr "CAFÉ cover")];
         [("product_code", VStr "B"); ("product_name", VStr "Home")]].

Definition accented_branches : DataFrame :=
  mk_df ["branch_name"; "branch_manager"; "address"; "opening_hours"; "product_codes"]
        [[("branch_name", VStr "Orléans"); ("branch_manager", VStr "Zoé");
          ("address", VStr "1 rue Haute"); ("opening_hours", VStr "9-5");
          ("product_codes", VList [VStr "A"])]].

(** * Properties *)

Unset Implicit Arguments.

(** ** Text *)



Lemma split_pieces_free (sep : ascii) (s : string) :
  Forall (fun p => contains_char sep p = false) (split sep s).
Proof.
  induction s as [|c r IH]; simpl.
  - constructor; [reflexivity|constructor].
  - destruct (Ascii.eqb_spec c sep) as [->|NE].
    + constructor; [reflexivity|exact IH].
    + apply Ascii.eqb_neq in NE.
      destruct (split sep r) as [|p ps]; inversion IH; subst.
      * constructor; [simpl; now rewrite NE|constructor].
      * constructor; [simpl; now rewrite NE|assumption].
Qed.

Lemma lstrip_by_spec {A : Type} (blank : A -> bool) (l : list A) :
  exists pre, l = (pre ++ lstrip_by blank l)%list
              /\ forallb blank pre = true
              /\ (forall c, hd_error (lstrip_by blank l) = Some c -> blank c = false).
Proof.
  induction l as [|c r (pre & E & B & F)]; simpl.
  - exists []. repeat split; simpl; congruence.
  - destruct (blank c) eqn:Bc.
    + exists (c :: pre). simpl. rewrite <- E, Bc, B. repeat split; assumption.
    + exists []. repeat split. simpl. intros ? [= <-]. exact Bc.
Qed.

Lemma rstrip_by_spec {A : Type} (blank : A -> bool) (l : list A) :
  exists post, l = (rstrip_by blank l ++ post)%list
               /\ forallb blank post = true
               /\ (forall c, last_error (rstrip_by blank l) = Some c -> blank c = false).
Proof.
  induction l as [|c r (post & E & B & L)]; simpl.
  - exists []. repeat split; simpl; congruence.
  - destruct (rstrip_by blank r) as [|d r'] eqn:R; simpl in E; subst r.
    + destruct (blank c) eqn:Bc.
      * exists (c :: post). simpl. rewrite Bc, B. repeat split. discriminate.
      * exists post. repeat split; [assumption|].
        simpl. intros ? [= <-]. exact Bc.
    + exists post. repeat split; assumption.
Qed.

Lemma rstrip_by_first {A : Type} (blank : A -> bool) (l : list A) (c : A) :
  hd_error (rstrip_by blank l) = Some c -> hd_error l = Some c.
Proof.
  destruct l as [|d r]; simpl; [congruence|].
  destruct (rstrip_by blank r); [destruct (blank d)|]; simpl; congruence.
Qed.

Lemma append_assoc (a b c : string) : (a ++ b) ++ c = a ++ b ++ c.
Proof. induction a; simpl; congruence. Qed.

(** *** Decoding *)

Lemma code_points_from_skip (s : string) (k : nat) :
  code_points_from k s = code_points (skip_bytes k s).
Proof.
  revert k. induction s as [|b r IH]; intros [|k]; try reflexivity.
  simpl. apply IH.
Qed.

Lemma code_points_cons (b : ascii) (r : string) :
  code_points (String b r)
  = fst (head_char b r) :: code_points (skip_bytes (snd (head_char b r)) r).
Proof.
  unfold code_points at 1. simpl. destruct (head_char b r) as [u e]. simpl.
  now rewrite code_points_from_skip.
Qed.

Lemma head_char_bytes (b : ascii) (r : string) :
  (utf8 (fst (head_char b r)) ++ skip_bytes (snd (head_char b r)) r = String b r
   /\ snd (head_char b r) <= String.length r)%nat.
Proof.
  unfold head_char, stray.
  destruct (byte_of b <? 128)%N; [simpl; split; [reflexivity|lia]|].
  destruct r as [|b2 r2]; [simpl; split; [reflexivity|lia]|].
  destruct (negb (continuation b2)); [simpl; split; [reflexivity|lia]|].
  destruct ((194 <=? byte_of b) && (byte_of b <? 224))%N; [simpl; split; [reflexivity|lia]|].
  destruct r2 as [|b3 r3]; [simpl; split; [reflexivity|lia]|].
  destruct (negb (continuation b3)); [simpl; split; [reflexivity|lia]|].
  destruct ((224 <=? byte_of b) && (byte_of b <? 240))%N.
  - match goal with |- context [if ?c then _ else _] => destruct c end;
      simpl; split; try reflexivity; lia.
  - destruct r3 as [|b4 r4]; [simpl; split; [reflexivity|lia]|].
    match goal with |- context [if ?c then _ else _] => destruct c end;
      simpl; split; try reflexivity; lia.
Qed.

Lemma skip_bytes_length (k : nat) (s : string) :
  (String.length (skip_bytes k s) <= String.length s)%nat.
Proof.
  revert s. induction k as [|k IH]; intros [|c s]; simpl; try lia.
  specialize (IH s). lia.
Qed.

Lemma string_length_ind (P : string -> Prop) :
  (forall s, (forall t, (String.length t < String.length s)%nat -> P t) -> P s) ->
  forall s, P s.
Proof.
  intros H s.
  assert (G : forall n t, (String.length t < n)%nat -> P t).
  { induction n as [|n IH]; intros t L; [lia|].
    apply H. intros t' L'. apply IH. lia. }
  apply (G (S (String.length s))). lia.
Qed.

Lemma text_of_code_points (s : string) : text_of (code_points s) = s.
Proof.
  induction s as [s IH] using string_length_ind.
  destruct s as [|b r]; [reflexivity|].
  rewrite code_points_cons. simpl.
  destruct (head_char_bytes b r) as [E L].
  rewrite IH; [exact E|].
  pose proof (skip_bytes_length (snd (head_char b r)) r). simpl. lia.
Qed.

Lemma text_of_app (l1 l2 : list uchar) :
  text_of (l1 ++ l2) = text_of l1 ++ text_of l2.
Proof.
  induction l1 as [|u l1 IH]; simpl; [reflexivity|].
  rewrite IH. induction (utf8 u); simpl; congruence.
Qed.

Lemma code_points_suffix (l1 l2 : list uchar) (s : string) :
  code_points s = (l1 ++ l2)%list -> code_points (text_of l2) = l2.
Proof.
  revert s. induction l1 as [|u l1 IH]; intros s H.
  - simpl in H. rewrite <- H, text_of_code_points. reflexivity.
  - destruct s as [|b r]; [discriminate|].
    rewrite code_points_cons in H. injection H as _ H. now apply IH in H.
Qed.

Lemma head_char_boundary (b : ascii) (r s2 : string) :
  boundary s2 = true -> head_char b (r ++ s2) = head_char b r.
Proof.
  intros B. unfold head_char.
  destruct (byte_of b <? 128)%N; [reflexivity|].
  assert (S2 : forall (A : Type) (x : A) (f : ascii -> string -> A),
             (forall c t, s2 = String c t -> f c t = x) ->
             match s2 with String c t => f c t | EmptyString => x end = x).
  { intros A x f Hf. destruct s2; [reflexivity|]. now apply Hf. }
  destruct r as [|b2 r2]; simpl.
  { destruct s2 as [|c t]; [reflexivity|]. simpl in B. now rewrite B. }
  destruct (negb (continuation b2)); [reflexivity|].
  destruct ((194 <=? byte_of b) && (byte_of b <? 224))%N; [reflexivity|].
  destruct r2 as [|b3 r3]; simpl.
  { destruct s2 as [|c t]; [reflexivity|]. simpl in B. now rewrite B. }
  destruct (negb (continuation b3)); [reflexivity|].
  destruct ((224 <=? byte_of b) && (byte_of b <? 240))%N; [reflexivity|].
  destruct r3 as [|b4 r4]; simpl; [|reflexivity].
  destruct s2 as [|c t]; [reflexivity|]. simpl in B.
  apply negb_true_iff in B. now rewrite B.
Qed.

Lemma skip_bytes_app (k : nat) (r s2 : string) :
  (k <= String.length r)%nat -> skip_bytes k (r ++ s2) = skip_bytes k r ++ s2.
Proof.
  revert r. induction k as [|k IH]; intros r L.
  - destruct r; reflexivity.
  - destruct r as [|c r]; simpl in *; [lia|]. apply IH. lia.
Qed.

Lemma code_points_app (s1 s2 : string) :
  boundary s2 = true ->
  code_points (s1 ++ s2) = (code_points s1 ++ code_points s2)%list.
Proof.
  intros B. induction s1 as [s1 IH] using string_length_ind.
  destruct s1 as [|b r]; [reflexivity|].
  change (String b r ++ s2) with (String b (r ++ s2)).
  rewrite !code_points_cons, (head_char_boundary _ _ _ B).
  destruct (head_char_bytes b r) as [_ L].
  rewrite (skip_bytes_app _ _ _ L), IH; [reflexivity|].
  pose proof (skip_bytes_length (snd (head_char b r)) r). simpl. lia.
Qed.

Lemma unblank_of (o : option uchar) :
  (forall c, o = Some c -> blank c = false) -> unblank o = true.
Proof. destruct o as [c|]; simpl; [|reflexivity]. intros H. now rewrite (H c eq_refl). Qed.

Lemma strip_trimmed (s : string) : trimmed s (strip s).
Proof.
  unfold strip, trimmed.
  destruct (lstrip_by_spec blank (code_points s)) as (pre & E1 & B1 & F).
  destruct (rstrip_by_spec blank (lstrip_by blank (code_points s))) as (post & E2 & B2 & L).
  exists pre, (rstrip_by blank (lstrip_by blank (code_points s))), post.
  assert (E : code_points s
              = (pre ++ rstrip_by blank (lstrip_by blank (code_points s)) ++ post)%list).
  { rewrite <- E2. exact E1. }
  repeat split; try assumption.
  - rewrite <- (text_of_code_points s) at 1. rewrite E at 1.
    now rewrite !text_of_app.
  - apply unblank_of. intros c Hc. apply F.
    now apply rstrip_by_first with (blank := blank).
  - apply unblank_of. exact L.
Qed.

Lemma prefix_app (t s : string) :
  prefix t s = true <-> exists post, s = t ++ post.
Proof.
  revert s. induction t as [|a t IH]; intros s.
  - destruct s; simpl; split; eauto.
  - destruct s as [|b s]; simpl.
    + split; [discriminate|]. intros (post & E). discriminate.
    + destruct (ascii_dec a b) as [->|NE].
      * rewrite IH. split; intros (post & E); exists post; congruence.
      * split; [discriminate|]. intros (post & E). congruence.
Qed.

(** [is_substring t s] says that [t] occurs in [s]. *)
Lemma is_substring_occurs (t s : string) :
  is_substring t s = true <-> exists pre post, s = pre ++ t ++ post.
Proof.
  induction s as [|c s IH].
  - change (is_substring t "") with (prefix t "" || false).
    rewrite orb_false_r, prefix_app. split.
    + intros (post & E). exists EmptyString, post. exact E.
    + intros (pre & post & E). destruct pre; simpl in E; [eauto|discriminate].
  - change (is_substring t (String c s))
      with (prefix t (String c s) || is_substring t s).
    rewrite orb_true_iff, prefix_app, IH. split.
    + intros [(post & E)|(pre & post & E)].
      * exists EmptyString, post. exact E.
      * exists (String c pre), post. simpl. congruence.
    + intros (pre & post & E). destruct pre as [|d pre]; simpl in E.
      * left. eauto.
      * right. exists pre, post. congruence.
Qed.

(** ** Regular expressions on plain terms *)

Lemma sre_parse_plain (term : string) :
  plain_term term = true -> sre_parse term = Ok (map LITERAL (points term)).
Proof.
  unfold plain_term, sre_parse.
  induction (points term) as [|c r IH]; [reflexivity|].
  cbn [forallb map sre_parse_points].
  intros H. apply andb_true_iff in H as [Hc Hr]. apply negb_true_iff in Hc.
  destruct (N.eqb_spec c 46) as [->|_]; [vm_compute in Hc; discriminate Hc|].
  rewrite Hc, (IH Hr). reflexivity.
Qed.

Lemma match_here_literals (t s : list N) :
  match_here (map LITERAL t) s = starts_with t s.
Proof.
  revert s. induction t as [|c r IH]; intros [|d s]; try reflexivity.
  cbn [map match_here starts_with op_match]. now rewrite IH.
Qed.

Lemma search_points_literals (t s : list N) :
  search_points (map LITERAL t) s = occurs t s.
Proof.
  induction s as [|d s IH].
  - cbn [search_points occurs]. now rewrite match_here_literals.
  - cbn [search_points occurs]. now rewrite IH, match_here_literals.
Qed.

Lemma str_contains_plain (term : string) (texts : list string) :
  plain_term term = true ->
  str_contains term texts = Ok (map (icontains term) texts).
Proof.
  intros H. unfold str_contains. rewrite (sre_parse_plain _ H). cbn [bind].
  f_equal. apply map_ext. intros s. apply search_points_literals.
Qed.

Lemma same_letter_trans (a b c : N) :
  same_letter a b = true -> same_letter b c = true -> same_letter a c = true.
Proof. unfold same_letter. rewrite !N.eqb_eq. congruence. Qed.

Lemma starts_with_alike (t s : list N) :
  starts_with t s = true <-> exists mid post, s = (mid ++ post)%list /\ alike t mid.
Proof.
  revert s. induction t as [|a t IH]; intros s.
  - split; [|reflexivity]. intros _. exists [], s. split; [reflexivity|constructor].
  - destruct s as [|b s]; cbn [starts_with].
    + split; [discriminate|]. intros (mid & post & E & F).
      inversion F; subst. discriminate.
    + rewrite andb_true_iff, IH. split.
      * intros (L & mid & post & -> & F). exists (b :: mid), post.
        split; [reflexivity|]. now constructor.
      * intros (mid & post & E & F). inversion F as [|? c ? mid' L F']; subst.
        injection E as <- ->. split; [exact L|]. now exists mid', post.
Qed.

(** [occurs t s] says that some run of characters of [s] is [t], letter
    case aside. *)
Lemma occurs_alike (t s : list N) :
  occurs t s = true
  <-> exists pre mid post, s = (pre ++ mid ++ post)%list /\ alike t mid.
Proof.
  induction s as [|c s IH]; cbn [occurs].
  - rewrite orb_false_r, starts_with_alike. split.
    + intros (mid & post & E & F). now exists [], mid, post.
    + intros (pre & mid & post & E & F).
      destruct pre; [|discriminate]. now exists mid, post.
  - rewrite orb_true_iff, starts_with_alike, IH. split.
    + intros [(mid & post & E & F)|(pre & mid & post & E & F)].
      * now exists [], mid, post.
      * exists (c :: pre), mid, post. split; [|exact F]. simpl. now rewrite E.
    + intros (pre & mid & post & E & F). destruct pre as [|d pre].
      * left. now exists mid, post.
      * right. exists pre, mid, post. split; [|exact F]. simpl in E. congruence.
Qed.

(** ** Sequencing *)

Lemma mapM_total {A B : Type} (f : A -> outcome B) (g : A -> B) (l : list A) :
  (forall a, In a l -> f a = Ok (g a)) -> mapM f l = Ok (map g l).
Proof.
  induction l as [|a r IH]; intros H; simpl; [reflexivity|].
  rewrite (H a (or_introl eq_refl)). simpl.
  rewrite IH by (intros; apply H; now right). reflexivity.
Qed.

Lemma select_map {A : Type} (keep : A -> bool) (l : list A) :
  select (map keep l) l = filter keep l.
Proof.
  induction l as [|a r IH]; simpl; [reflexivity|].
  rewrite IH. reflexivity.
Qed.

Lemma combine_map_same {A B C : Type} (f : A -> B) (g : A -> C) (l : list A) :
  combine (map f l) (map g l) = map (fun a => (f a, g a)) l.
Proof. induction l; simpl; congruence. Qed.

Lemma for_each_events {A : Type} (body : A -> ui unit) (show : A -> list st_event)
      (l : list A) :
  (forall a, In a l -> body a = (show a, Ok tt)) ->
  for_each l body = (flat_map show l, Ok tt).
Proof.
  induction l as [|a r IH]; intros H; simpl; [reflexivity|].
  unfold ui_bind. rewrite (H a (or_introl eq_refl)).
  rewrite IH by (intros; apply H; now right). reflexivity.
Qed.

(** ** Code lists *)


Lemma normalize_codes_total (x : pyval) : exists l, normalize_codes x = Ok (VList l).
Proof.
  exists (Spec.normalize_codes x).
  destruct x as [| |b|n|f|s|l|d]; reflexivity.
Qed.

(** ** Membership *)

(** C8.  The membership check of the product search always answers with a
    boolean: the answer of [in] when [in] answers, [False] when it raises,
    as it does on a value that is not iterable. *)
Theorem branch_has_code_safe :
  (forall product_code codes, exists b, branch_has_code product_code codes = Ok b)
  /\ (forall product_code codes,
         branch_has_code product_code codes
         = Ok (match py_in product_code codes with
               | Ok b => b
               | Raise _ => false
               | Unmodelled => false
               end))
  /\ (exists e, py_in (VStr "A") (VInt 5) = Raise e)
  /\ branch_has_code (VStr "A") (VInt 5) = Ok false
  /\ branch_has_code (VStr "A") VNaN = Ok false
  /\ branch_has_code (VList [VStr "A"]) (VDict [("A", VNone)]) = Ok false.
Proof.
  assert (E : forall product_code codes,
             branch_has_code product_code codes
             = Ok (match py_in product_code codes with
                   | Ok b => b | Raise _ => false | Unmodelled => false end)).
  { intros x c. unfold branch_has_code.
    destruct c as [| |b|n|f|s|l|d]; try reflexivity.
    - destruct x; reflexivity.
    - simpl. destruct (hashable x); reflexivity. }
  repeat split; try reflexivity; try exact E.
  - intros x c. eexists. apply E.
  - eexists. reflexivity.
Qed.

(** ** Opening hours *)

Lemma py_int_cases (v : pyval) :
  (exists n, py_int v = Ok n) \/ (exists e, py_int v = Raise e).
Proof.
  destruct v as [| |b|n|f|s|l|d]; cbn [py_int]; eauto.
  - destruct (float_trunc f); eauto.
  - destruct (parse_int s); eauto.
Qed.

Ltac split_int v :=
  let n := fresh "n" in
  let e := fresh "e" in
  let E := fresh "E" in
  destruct (py_int_cases v) as [(n & E)|(e & E)]; rewrite E; cbn [bind try_except].

Lemma hours_step_spec (hours_list : list string) (entry : pyval) :
  hours_step hours_list entry
  = Ok (hours_list ++ match entry_text entry with
                      | Some t => [t]
                      | None => []
                      end)%list.
Proof.
  destruct entry as [| |b|n|f|s|l|e]; cbn [hours_step entry_text];
    try (now rewrite app_nil_r).
  unfold has_hours, minute_read, int_read, clock, day_label, clock_text.
  set (oh := dict_get e "openingHour" VNone).
  set (ch := dict_get e "closingHour" VNone).
  set (om := py_or (dict_get e "openingMinute" (VInt 0)) (VInt 0)).
  set (cm := py_or (dict_get e "closingMinute" (VInt 0)) (VInt 0)).
  rewrite <- negb_orb.
  destruct (is_none oh || is_none ch); cbn [negb]; [now rewrite app_nil_r|].
  split_int oh; [|now rewrite app_nil_r].
  split_int om; [|now rewrite app_nil_r].
  split_int ch; [|now rewrite app_nil_r].
  split_int cm; [|now rewrite app_nil_r].
  destruct (truthy (dict_get e "day" (VStr ""))); cbn [try_except];
    [now rewrite !append_assoc|reflexivity].
Qed.

Lemma hours_loop_spec (entries : list pyval) (hours_list : list string) :
  hours_loop hours_list entries = Ok (hours_list ++ entry_texts entries)%list.
Proof.
  revert hours_list. induction entries as [|entry rest IH]; intros hl.
  - cbn. now rewrite app_nil_r.
  - cbn [hours_loop]. rewrite hours_step_spec. cbn [bind]. rewrite IH.
    unfold entry_texts. cbn [flat_map]. now rewrite <- app_assoc.
Qed.

(** The text for a list of entries. *)
Lemma format_opening_hours_list (entries : list pyval) :
  format_opening_hours (VList entries)
  = Ok (match entry_texts entries with
        | [] => "N/A"
        | texts => join ", " texts
        end).
Proof.
  unfold format_opening_hours. destruct entries as [|entry rest]; [reflexivity|].
  cbn [truthy negb]. rewrite hours_loop_spec. cbn [bind app].
  destruct (entry_texts (entry :: rest)); reflexivity.
Qed.

Lemma format_opening_hours_returns (raw : pyval) :
  format_opening_hours raw = Ok (hours_shown raw).
Proof.
  unfold hours_shown.
  destruct raw as [| |b|n|f|s|l|d];
    try (unfold format_opening_hours;
         match goal with |- context [negb ?c] => destruct c end; reflexivity).
  now rewrite format_opening_hours_list.
Qed.














(** ** Frames *)

Lemma ui_bind_lift {A B : Type} (a : A) (k : A -> ui B) :
  ui_bind (lift (Ok a)) k = k a.
Proof. unfold ui_bind, lift. destruct (k a). reflexivity. Qed.

Lemma ui_bind_emit {B : Type} (e : st_event) (k : unit -> ui B) :
  ui_bind (emit e) k = (e :: fst (k tt), snd (k tt)).
Proof. unfold ui_bind, emit. destruct (k tt). reflexivity. Qed.

Lemma mapM_map_total {A B C : Type} (f : B -> outcome C) (g : A -> B) (h : A -> C)
      (l : list A) :
  (forall a, In a l -> f (g a) = Ok (h a)) -> mapM f (map g l) = Ok (map h l).
Proof.
  intros H. induction l as [|a r IH]; simpl; [reflexivity|].
  rewrite (H a (or_introl eq_refl)). simpl.
  rewrite IH by (intros; apply H; now right). reflexivity.
Qed.

Lemma combine_with_map {A B : Type} (g : A -> B) (l : list A) :
  combine l (map g l) = map (fun a => (a, g a)) l.
Proof. induction l; simpl; congruence. Qed.

Lemma flat_map_map {A B C : Type} (f : B -> list C) (g : A -> B) (l : list A) :
  flat_map f (map g l) = flat_map (fun a => f (g a)) l.
Proof. induction l; simpl; congruence. Qed.

Lemma dict_lookup_set_same (r : Row) (c : string) (v : pyval) :
  dict_lookup c (set_cell r c v) = Some v.
Proof.
  induction r as [|[k x] r IH]; simpl.
  - now rewrite String.eqb_refl.
  - destruct (String.eqb k c) eqn:E; simpl; rewrite E; [reflexivity|exact IH].
Qed.

Lemma dict_lookup_set_other (r : Row) (c c' : string) (v : pyval) :
  c <> c' -> dict_lookup c' (set_cell r c v) = dict_lookup c' r.
Proof.
  intros NE. induction r as [|[k x] r IH]; simpl.
  - apply String.eqb_neq in NE. now rewrite NE.
  - destruct (String.eqb_spec k c) as [->|NK]; simpl.
    + apply String.eqb_neq in NE. now rewrite NE.
    + now rewrite IH.
Qed.

Lemma cell_set_same (r : Row) (c : string) (v : pyval) :
  cell (set_cell r c v) c = v.
Proof. unfold cell, dict_get. now rewrite dict_lookup_set_same. Qed.

Lemma cell_set_other (r : Row) (c c' : string) (v : pyval) :
  c <> c' -> cell (set_cell r c v) c' = cell r c'.
Proof. intros NE. unfold cell, dict_get. now rewrite dict_lookup_set_other. Qed.

Lemma has_column_setitem (df : DataFrame) (c c' : string) (values : list pyval) :
  has_column (df_setitem df c values) c' = has_column df c' || String.eqb c' c.
Proof.
  unfold has_column at 1, df_setitem. simpl.
  destruct (has_column df c) eqn:H.
  - fold (has_column df c').
    destruct (String.eqb_spec c' c) as [->|_];
      [now rewrite H|now rewrite orb_false_r].
  - rewrite existsb_app. simpl. now rewrite orb_false_r.
Qed.

Lemma records_setitem (df : DataFrame) (c : string) (g : Row -> pyval) :
  records (df_setitem df c (map g (records df)))
  = map (fun r => set_cell r c (g r)) (records df).
Proof.
  unfold df_setitem. simpl. rewrite combine_with_map, map_map. reflexivity.
Qed.

Lemma df_empty_columns (df : DataFrame) (c : string) (rows : list Row) :
  has_column df c = true ->
  df_empty (mk_df (columns df) rows) = match rows with [] => true | _ => false end.
Proof.
  unfold has_column, df_empty. simpl.
  destruct (columns df); simpl; [discriminate|]. destruct rows; reflexivity.
Qed.

(** ** Search *)

Lemma has_columns_cons (df : DataFrame) (c : string) (cols : list string) :
  has_columns df (c :: cols) = true ->
  has_column df c = true /\ has_columns df cols = true.
Proof. unfold has_columns. simpl. intros H. now apply andb_true_iff in H. Qed.

Lemma product_search_mask_plain (term : string) (df_products : DataFrame) :
  plain_term term = true ->
  has_columns df_products product_schema = true ->
  product_search_mask term df_products
  = Ok (map (fun p => icontains term (py_str (cell p "product_name"))
                      || icontains term (py_str (cell p "product_code")))
            (records df_products)).
Proof.
  intros P H.
  apply has_columns_cons in H as [Hcode H].
  apply has_columns_cons in H as [Hname _].
  unfold product_search_mask, df_getitem, astype_str.
  rewrite Hname, Hcode. cbn [bind].
  rewrite !(str_contains_plain term _ P). cbn [bind].
  rewrite !map_map, combine_map_same, map_map. reflexivity.
Qed.

Lemma branch_search_mask_plain (term : string) (df_branches : DataFrame) :
  plain_term term = true ->
  has_column df_branches "branch_name" = true ->
  branch_search_mask term df_branches
  = Ok (map (fun b => icontains term (py_str (cell b "branch_name")))
            (records df_branches)).
Proof.
  intros P H. unfold branch_search_mask, df_getitem, astype_str.
  rewrite H. cbn [bind]. rewrite (str_contains_plain term _ P), !map_map. reflexivity.
Qed.

(** C10 (amended).  For a term without regular-expression characters, both
    searches test the printed form of the searched cells, whatever their
    type: a product is selected exactly when the term occurs, letter case
    aside, in the printed name or the printed code, a branch exactly when it
    occurs in the printed name; the test returns and does not raise.  The
    term occurs in a text when some run of characters of the text is the
    term, character by character, letter case aside. *)
Theorem search_tests_printed_form (term : string) (df_products df_branches : DataFrame) :
  plain_term term = true ->
  has_columns df_products product_schema = true ->
  has_column df_branches "branch_name" = true ->
  product_search_mask term df_products
  = Ok (map (fun p => icontains term (py_str (cell p "product_name"))
                      || icontains term (py_str (cell p "product_code")))
            (records df_products))
  /\ branch_search_mask term df_branches
     = Ok (map (fun b => icontains term (py_str (cell b "branch_name")))
               (records df_branches))
  /\ (forall s, icontains term s = true
                <-> exists pre mid post,
                      points s = (pre ++ mid ++ post)%list /\ alike (points term) mid).
Proof.
  intros P Hp Hb. split; [|split].
  - now apply product_search_mask_plain.
  - now apply branch_search_mask_plain.
  - intros s. apply occurs_alike.
Qed.

Lemma search_tests_printed_form_witness :
  plain_term "N" = true
  /\ has_columns unnamed_products product_schema = true
  /\ has_column unnamed_branches "branch_name" = true
  /\ py_str (cell (hd [] (records unnamed_products)) "product_name") = "nan"
  /\ py_str (cell (hd [] (records unnamed_branches)) "branch_name") = "None"
  /\ product_search_mask "N" unnamed_products = Ok [true]
  /\ branch_search_mask "N" unnamed_branches = Ok [true]
  /\ plain_term "café" = true
  /\ product_search_mask "café" accented_products = Ok [true; false]
  /\ branch_search_mask "café" accented_branches = Ok [false]
  /\ plain_term "ORLÉ" = true
  /\ branch_search_mask "ORLÉ" accented_branches = Ok [true].
Proof.
  split; [reflexivity|]. split; [reflexivity|]. split; [reflexivity|].
  split; [reflexivity|]. split; [reflexivity|].
  pose proof (search_tests_printed_form "N" unnamed_products unnamed_branches
                eq_refl eq_refl eq_refl) as (Hp & Hb & _).
  pose proof (search_tests_printed_form "café" accented_products accented_branches
                eq_refl eq_refl eq_refl) as (Hp' & Hb' & _).
  pose proof (search_tests_printed_form "ORLÉ" accented_products accented_branches
                eq_refl eq_refl eq_refl) as (_ & Hb'' & _).
  vm_compute in Hp. vm_compute in Hb. vm_compute in Hp'. vm_compute in Hb'.
  vm_compute in Hb''. vm_compute.
  exact (conj Hp (conj Hb (conj eq_refl (conj Hp' (conj Hb' (conj eq_refl Hb'')))))).
Defined.

(** C10 as stated fails: the term is compiled as a regular expression, so
    ["."] selects a product whose printed name and code hold no dot, and a
    branch whose printed name holds none. *)
Lemma search_term_is_a_pattern :
  product_search_mask "." numeric_products = Ok [true]
  /\ map (fun p => icontains "." (py_str (cell p "product_name"))
                   || icontains "." (py_str (cell p "product_code")))
         (records numeric_products) = [false]
  /\ branch_search_mask "." sample_branches = Ok [true; true]
  /\ map (fun b => icontains "." (py_str (cell b "branch_name")))
         (records sample_branches) = [false; false].
Proof. repeat split; vm_compute; reflexivity. Qed.

Lemma matched_branches_of_lists (product_code : pyval) (df_branches : DataFrame) :
  has_column df_branches "product_codes" = true ->
  forallb (fun b => is_list (cell b "product_codes")) (records df_branches) = true ->
  matched_branches_of product_code df_branches
  = Ok (mk_df (columns df_branches)
              (filter (fun b => Spec.code_member product_code (cell b "product_codes"))
                      (records df_branches))).
Proof.
  intros Hc Hl. unfold matched_branches_of, df_getitem. rewrite Hc. simpl.
  rewrite mapM_map_total
    with (h := fun b => Spec.code_member product_code (cell b "product_codes")).
  - simpl. unfold df_mask. now rewrite select_map.
  - intros b Hb. rewrite forallb_forall in Hl. specialize (Hl b Hb).
    destruct (cell b "product_codes"); try discriminate. reflexivity.
Qed.

Lemma df_project_present (df : DataFrame) (cols : list string) :
  has_columns df cols = true ->
  df_project df cols
  = Ok (mk_df cols (map (fun r => map (fun c => (c, cell r c)) cols) (records df))).
Proof.
  intros H. unfold df_project.
  assert (E : filter (fun c => negb (has_column df c)) cols = []).
  { unfold has_columns in H. induction cols as [|c cols IH]; simpl in *; [reflexivity|].
    apply andb_true_iff in H as [Hc H]. rewrite Hc. simpl. now apply IH. }
  now rewrite E.
Qed.

Lemma display_branches_table (cols : list string) (rows : list Row) :
  has_columns (mk_df cols rows)
              ["branch_name"; "branch_manager"; "address"; "opening_hours"] = true ->
  display_branches (mk_df cols rows) = Ok (Spec.branch_table rows).
Proof.
  intros H.
  apply has_columns_cons in H as [Hn H].
  apply has_columns_cons in H as [Hm H].
  apply has_columns_cons in H as [Ha H].
  apply has_columns_cons in H as [Ho _].
  unfold display_branches, df_getitem. rewrite Ho. cbn [bind records].
  rewrite mapM_map_total
    with (h := fun r => hours_shown (cell r "opening_hours"))
    by (intros; apply format_opening_hours_returns).
  cbn [bind]. rewrite map_map.
  pose (shown := fun r : Row => VStr (hours_shown (cell r "opening_hours"))).
  change (map (fun x : Row => VStr (hours_shown (cell x "opening_hours"))) rows)
    with (map shown (records (mk_df cols rows))).
  rewrite df_project_present.
  - cbn [bind]. rewrite records_setitem. cbn [records].
    unfold df_rename, Spec.branch_table, display_columns. cbn [columns records].
    f_equal. apply f_equal2; [reflexivity|].
    rewrite !map_map. apply map_ext. intros r.
    cbn [map fst snd].
    rewrite cell_set_same, !cell_set_other by discriminate.
    reflexivity.
  - unfold has_columns, display_columns. cbn [forallb].
    rewrite !has_column_setitem, Hn, Hm, Ha, String.eqb_refl, orb_true_r.
    reflexivity.
Qed.

Lemma product_panel_events (matched_products df_branches : DataFrame) (p : Row) :
  has_columns matched_products product_schema = true ->
  has_columns df_branches branch_schema = true ->
  forallb (fun b => is_list (cell b "product_codes")) (records df_branches) = true ->
  product_panel matched_products df_branches p
  = (Spec.product_events (p, filter (fun b => Spec.allocated p b) (records df_branches)),
     Ok tt).
Proof.
  intros Hp Hb Hl.
  apply has_columns_cons in Hp as [Hcode Hp].
  apply has_columns_cons in Hp as [Hname _].
  pose proof Hb as Hb'.
  apply has_columns_cons in Hb' as [Hbn Hb'].
  apply has_columns_cons in Hb' as [Hbm Hb'].
  apply has_columns_cons in Hb' as [Hba Hb'].
  apply has_columns_cons in Hb' as [Hbo Hb'].
  apply has_columns_cons in Hb' as [Hbc _].
  unfold product_panel, row_getitem. rewrite Hcode, Hname.
  rewrite !ui_bind_lift, ui_bind_emit.
  rewrite (matched_branches_of_lists _ _ Hbc Hl), ui_bind_lift.
  cbn [records].
  rewrite (df_empty_columns _ "product_codes" _ Hbc).
  unfold Spec.product_events, Spec.allocated.
  destruct (filter _ (records df_branches)) as [|b bs] eqn:F; [reflexivity|].
  cbn [negb]. rewrite ui_bind_emit, display_branches_table, ui_bind_lift.
  - reflexivity.
  - unfold has_columns. cbn [forallb].
    change (has_column (mk_df (columns df_branches) (b :: bs)))
      with (has_column df_branches).
    now rewrite Hbn, Hbm, Hba, Hbo.
Qed.

(** C1 (amended).  An empty term is answered with a prompt and no result.
    For a non-empty term without regular-expression characters, on a
    normalised snapshot whose product names and codes are all present, the
    product search shows exactly the products whose name or code contains
    the term, letter case aside, each with exactly the branches whose code
    list has the product's code as a member; products and branches come in
    snapshot order. *)
Theorem product_search_correct (term : string) (df_products df_branches : DataFrame) :
  product_to_branches "" df_products df_branches
  = ([st_subheader "🔍 Search by Product";
      st_info "Enter a product name or code above to search."], Ok tt)
  /\ (nonempty term = true ->
      plain_term term = true ->
      normalized_snapshot df_products df_branches = true ->
      all_present df_products "product_name" = true ->
      all_present df_products "product_code" = true ->
      product_to_branches term df_products df_branches
      = (Spec.searchByProduct_events term (records df_products) (records df_branches),
         Ok tt)).
Proof.
  split; [reflexivity|].
  intros NE P N An Ac.
  unfold normalized_snapshot in N.
  apply andb_true_iff in N as [N Hl]. apply andb_true_iff in N as [Hp Hb].
  unfold product_to_branches. rewrite ui_bind_emit, NE.
  rewrite (product_search_mask_plain _ _ P Hp), ui_bind_lift.
  unfold df_mask. rewrite select_map.
  assert (F : filter (fun p => icontains term (py_str (cell p "product_name"))
                               || icontains term (py_str (cell p "product_code")))
                     (records df_products)
              = filter (Spec.product_matches term) (records df_products)).
  { apply filter_ext_in. intros p Hin.
    unfold all_present in An, Ac. rewrite forallb_forall in An, Ac.
    specialize (An p Hin). specialize (Ac p Hin).
    unfold Spec.product_matches, Spec.field_contains.
    apply negb_true_iff in An, Ac. now rewrite An, Ac. }
  rewrite F.
  pose proof Hp as Hp'. apply has_columns_cons in Hp' as [Hcode _].
  rewrite (df_empty_columns _ "product_code" _ Hcode).
  unfold Spec.searchByProduct_events, Spec.searchByProduct.
  destruct (filter (Spec.product_matches term) (records df_products)) as [|p ps] eqn:E;
    [reflexivity|].
  cbn [negb records].
  rewrite for_each_events
    with (show := fun p => Spec.product_events
                             (p, filter (fun b => Spec.allocated p b) (records df_branches))).
  - cbn [fst snd map flat_map]. rewrite flat_map_map. reflexivity.
  - intros a _. now apply product_panel_events.
Qed.

Lemma product_search_correct_witness :
  nonempty "car" = true
  /\ plain_term "car" = true
  /\ normalized_snapshot sample_products sample_branches = true
  /\ all_present sample_products "product_name" = true
  /\ all_present sample_products "product_code" = true
  /\ map (fun res => (cell (fst res) "product_code",
                      map (fun b => cell b "branch_name") (snd res)))
         (Spec.searchByProduct "car" (records sample_products) (records sample_branches))
     = [(VStr "A", [VStr "Leeds"])]
  /\ product_to_branches "car" sample_products sample_branches
     = (Spec.searchByProduct_events "car" (records sample_products)
          (records sample_branches), Ok tt)
  /\ map (fun res => (cell (fst res) "product_code",
                      map (fun b => cell b "branch_name") (snd res)))
         (Spec.searchByProduct "é C" (records accented_products) (records accented_branches))
     = [(VStr "A", [VStr "Orléans"])]
  /\ product_to_branches "é C" accented_products accented_branches
     = (Spec.searchByProduct_events "é C" (records accented_products)
          (records accented_branches), Ok tt).
Proof.
  split; [reflexivity|]. split; [reflexivity|]. split; [reflexivity|].
  split; [reflexivity|]. split; [reflexivity|]. split; [vm_compute; reflexivity|].
  split.
  - exact (proj2 (product_search_correct "car" sample_products sample_branches)
             eq_refl eq_refl eq_refl eq_refl eq_refl).
  - split; [vm_compute; reflexivity|].
    exact (proj2 (product_search_correct "é C" accented_products accented_branches)
             eq_refl eq_refl eq_refl eq_refl eq_refl).
Defined.

(** C1 as stated fails in three ways: an empty term is answered with a
    prompt, not with every product; the term is compiled as a regular
    expression, so ["."] selects products that hold no dot; and a missing
    name is searched as the text ["nan"]. *)
Lemma product_search_departs_from_wording :
  product_to_branches "" sample_products sample_branches
  <> (Spec.searchByProduct_events "" (records sample_products)
        (records sample_branches), Ok tt)
  /\ product_to_branches "." sample_products sample_branches
     <> (Spec.searchByProduct_events "." (records sample_products)
           (records sample_branches), Ok tt)
  /\ product_to_branches "nan" unnamed_products sample_branches
     <> (Spec.searchByProduct_events "nan" (records unnamed_products)
           (records sample_branches), Ok tt).
Proof.
  split; [|split]; intros H; vm_compute in H; discriminate H.
Qed.

Lemma forallb_map {A B : Type} (p : B -> bool) (g : A -> B) (l : list A) :
  forallb p (map g l) = forallb (fun a => p (g a)) l.
Proof. induction l; simpl; congruence. Qed.

Lemma py_or_list (l : list pyval) : py_or (VList l) (VList []) = VList l.
Proof. destruct l; reflexivity. Qed.

Lemma same_key_atom (x y : pyval) : atom y = true -> same_key y x = py_eq y x.
Proof.
  unfold atom, same_key. intros H. apply andb_true_iff in H as [_ H].
  apply negb_true_iff in H. rewrite H. apply orb_false_r.
Qed.

Lemma matched_products_of_atoms (l : list pyval) (df_products : DataFrame) :
  has_column df_products "product_code" = true ->
  forallb atom l = true ->
  forallb (fun p => hashable (cell p "product_code")) (records df_products) = true ->
  matched_products_of (VList l) df_products
  = Ok (mk_df (columns df_products)
              (filter (fun p => Spec.code_member (cell p "product_code") (VList l))
                      (records df_products))).
Proof.
  intros Hc Hs Hh. unfold matched_products_of, df_getitem, isin.
  rewrite Hc. cbn [bind].
  assert (Hl : forallb hashable l = true).
  { rewrite forallb_forall in *. intros y Hy. specialize (Hs y Hy).
    unfold atom in Hs. now apply andb_true_iff in Hs as [Hs _]. }
  rewrite Hl, forallb_map, Hh. cbn [andb bind].
  unfold df_mask. rewrite map_map.
  rewrite map_ext_in
    with (g := fun p => Spec.code_member (cell p "product_code") (VList l)).
  - now rewrite select_map.
  - intros p _. cbn [Spec.code_member].
    rewrite forallb_forall in Hs.
    induction l as [|y l IH]; [reflexivity|]. cbn [existsb].
    rewrite same_key_atom by (apply Hs; now left).
    rewrite IH; [reflexivity| |].
    + intros z Hz. apply Hs. now right.
    + cbn [forallb] in Hl. now apply andb_true_iff in Hl as [_ Hl].
Qed.

Lemma branch_panel_events (matched_branches df_products : DataFrame) (b : Row) :
  has_columns matched_branches branch_schema = true ->
  has_columns df_products product_schema = true ->
  list_of_atoms (cell b "product_codes") = true ->
  forallb (fun p => hashable (cell p "product_code")) (records df_products) = true ->
  branch_panel matched_branches df_products b
  = (Spec.branch_events (b, filter (fun p => Spec.allocated p b) (records df_products)),
     Ok tt).
Proof.
  intros Hb Hp Hs Hh.
  pose proof Hp as Hp'.
  apply has_columns_cons in Hp' as [Hcode _].
  apply has_columns_cons in Hb as [Hbn Hb].
  apply has_columns_cons in Hb as [Hbm Hb].
  apply has_columns_cons in Hb as [Hba Hb].
  apply has_columns_cons in Hb as [Hbo Hb].
  apply has_columns_cons in Hb as [Hbc _].
  unfold branch_panel, row_getitem, row_get.
  rewrite Hbn, Hbm, Hba, Hbo, Hbc.
  rewrite format_opening_hours_returns.
  rewrite !ui_bind_lift, !ui_bind_emit.
  unfold Spec.branch_events, Spec.allocated.
  destruct (cell b "product_codes") as [| | | | | |l|] eqn:C; try discriminate Hs.
  cbn [list_of_atoms] in Hs.
  rewrite py_or_list, (matched_products_of_atoms _ _ Hcode Hs Hh), ui_bind_lift.
  cbn [records].
  rewrite (df_empty_columns _ "product_code" _ Hcode).
  destruct (filter _ (records df_products)) as [|p ps] eqn:F; [reflexivity|].
  cbn [negb]. rewrite ui_bind_emit, df_project_present, ui_bind_lift.
  - reflexivity.
  - exact Hp.
Qed.

(** C2 (amended).  An empty term is answered with a prompt and no result.
    For a non-empty term without regular-expression characters, on a
    normalised snapshot whose codes are single values (strings, numbers,
    booleans or null in the code lists; no list or dict as a product code)
    and whose branch names are all present, the branch search shows exactly
    the branches whose name contains the term, letter case aside, each with
    exactly the products whose code is a member of the branch's code list;
    branches and products come in snapshot order. *)
Theorem branch_search_correct (term : string) (df_products df_branches : DataFrame) :
  branch_to_products "" df_products df_branches
  = ([st_subheader "🏢 Search by Branch";
      st_info "Enter a branch name above to search."], Ok tt)
  /\ (nonempty term = true ->
      plain_term term = true ->
      normalized_snapshot df_products df_branches = true ->
      single_codes df_products df_branches = true ->
      all_present df_branches "branch_name" = true ->
      branch_to_products term df_products df_branches
      = (Spec.searchByBranch_events term (records df_products) (records df_branches),
         Ok tt)).
Proof.
  split; [reflexivity|].
  intros NE P N S An.
  unfold normalized_snapshot in N.
  apply andb_true_iff in N as [N _]. apply andb_true_iff in N as [Hp Hb].
  unfold single_codes in S. apply andb_true_iff in S as [Hs Hh].
  pose proof Hb as Hb'. apply has_columns_cons in Hb' as [Hbn _].
  unfold branch_to_products. rewrite ui_bind_emit, NE.
  rewrite (branch_search_mask_plain _ _ P Hbn), ui_bind_lift.
  unfold df_mask. rewrite select_map.
  assert (F : filter (fun b => icontains term (py_str (cell b "branch_name")))
                     (records df_branches)
              = filter (Spec.branch_matches term) (records df_branches)).
  { apply filter_ext_in. intros b Hin.
    unfold all_present in An. rewrite forallb_forall in An.
    specialize (An b Hin). apply negb_true_iff in An.
    unfold Spec.branch_matches, Spec.field_contains. now rewrite An. }
  rewrite F.
  rewrite (df_empty_columns _ "branch_name" _ Hbn).
  unfold Spec.searchByBranch_events, Spec.searchByBranch.
  destruct (filter (Spec.branch_matches term) (records df_branches)) as [|b bs] eqn:E;
    [reflexivity|].
  cbn [negb records].
  rewrite for_each_events
    with (show := fun b => Spec.branch_events
                             (b, filter (fun p => Spec.allocated p b) (records df_products))).
  - cbn [fst snd map flat_map]. rewrite flat_map_map. reflexivity.
  - intros a Ha. apply branch_panel_events; try assumption.
    rewrite forallb_forall in Hs. apply Hs.
    rewrite <- E in Ha. now apply filter_In in Ha as [Ha _].
Qed.

Lemma branch_search_correct_witness :
  nonempty "Leeds" = true
  /\ plain_term "Leeds" = true
  /\ normalized_snapshot sample_products sample_branches = true
  /\ single_codes sample_products sample_branches = true
  /\ all_present sample_branches "branch_name" = true
  /\ map (fun res => (cell (fst res) "branch_name",
                      map (fun p => cell p "product_code") (snd res)))
         (Spec.searchByBranch "Leeds" (records sample_products) (records sample_branches))
     = [(VStr "Leeds", [VStr "A"; VStr "B"]); (VStr "LEEDS East", [VStr "B"])]
  /\ branch_to_products "Leeds" sample_products sample_branches
     = (Spec.searchByBranch_events "Leeds" (records sample_products)
          (records sample_branches), Ok tt)
  /\ single_codes numbered_products numbered_branches = true
  /\ map (fun res => (cell (fst res) "branch_name",
                      map (fun p => cell p "product_code") (snd res)))
         (Spec.searchByBranch "york" (records numbered_products) (records numbered_branches))
     = [(VStr "York", [VInt 1])]
  /\ branch_to_products "york" numbered_products numbered_branches
     = (Spec.searchByBranch_events "york" (records numbered_products)
          (records numbered_branches), Ok tt)
  /\ map (fun res => cell (fst res) "branch_name")
         (Spec.searchByBranch "LÉA" (records accented_products) (records accented_branches))
     = [VStr "Orléans"]
  /\ branch_to_products "LÉA" accented_products accented_branches
     = (Spec.searchByBranch_events "LÉA" (records accented_products)
          (records accented_branches), Ok tt).
Proof.
  split; [reflexivity|]. split; [reflexivity|]. split; [reflexivity|].
  split; [reflexivity|]. split; [reflexivity|]. split; [vm_compute; reflexivity|].
  split.
  { exact (proj2 (branch_search_correct "Leeds" sample_products sample_branches)
             eq_refl eq_refl eq_refl eq_refl eq_refl). }
  split; [reflexivity|]. split; [vm_compute; reflexivity|].
  split.
  { exact (proj2 (branch_search_correct "york" numbered_products numbered_branches)
             eq_refl eq_refl eq_refl eq_refl eq_refl). }
  split; [vm_compute; reflexivity|].
  exact (proj2 (branch_search_correct "LÉA" accented_products accented_branches)
           eq_refl eq_refl eq_refl eq_refl eq_refl).
Defined.

(** C2 as stated fails in four ways: an empty term is answered with a
    prompt; the term is compiled as a regular expression, so ["."] selects
    branches whose names hold no dot; a null name is searched as the text
    ["None"]; and a product without a code is shown under a branch whose
    code list holds a missing value, of which it is no member. *)
Lemma branch_search_departs_from_wording :
  branch_to_products "" sample_products sample_branches
  <> (Spec.searchByBranch_events "" (records sample_products)
        (records sample_branches), Ok tt)
  /\ branch_to_products "." sample_products sample_branches
     <> (Spec.searchByBranch_events "." (records sample_products)
           (records sample_branches), Ok tt)
  /\ branch_to_products "none" sample_products unnamed_branches
     <> (Spec.searchByBranch_events "none" (records sample_products)
           (records unnamed_branches), Ok tt)
  /\ branch_to_products "hull" uncoded_products unknown_code_branches
     <> (Spec.searchByBranch_events "hull" (records uncoded_products)
           (records unknown_code_branches), Ok tt).
Proof.
  split; [|split; [|split]]; intros H; vm_compute in H; discriminate H.
Qed.

(** ** Normalisation of a frame *)

Lemma normalize_codes_spec (x : pyval) :
  normalize_codes x = Ok (VList (Spec.normalize_codes x)).
Proof. destruct x as [| |b|n|f|s|l|d]; reflexivity. Qed.

Lemma with_product_codes_rows (df : DataFrame) :
  with_product_codes df
  = Ok (df_setitem df "product_codes" (map (codes_for df) (records df))).
Proof.
  unfold with_product_codes, codes_for, df_getitem.
  destruct (has_column df "product_codes"); [|reflexivity].
  cbn [bind].
  rewrite mapM_map_total
    with (h := fun r => VList (Spec.normalize_codes (cell r "product_codes")))
    by (intros; apply normalize_codes_spec).
  reflexivity.
Qed.




Lemma has_column_rename (mapping : list (string * string)) (df : DataFrame) (c : string) :
  has_column df c = true ->
  has_column (df_rename mapping df) (rename_label mapping c) = true.
Proof.
  unfold has_column, df_rename. simpl.
  induction (columns df) as [|k ks IH]; simpl; [discriminate|].
  intros H. apply orb_true_iff in H as [H|H].
  - apply String.eqb_eq in H. subst k. now rewrite String.eqb_refl.
  - rewrite (IH H). apply orb_true_r.
Qed.

Lemma rename_to_codes (k : string) :
  String.eqb (rename_label branch_renames k) "product_codes"
  = String.eqb k "productCodes" || String.eqb k "product_codes".
Proof.
  unfold branch_renames. cbn [rename_label].
  destruct (String.eqb_spec "name" k) as [<-|_]; [reflexivity|].
  destruct (String.eqb_spec "manager" k) as [<-|_]; [reflexivity|].
  destruct (String.eqb_spec "postalAddress" k) as [<-|_]; [reflexivity|].
  destruct (String.eqb_spec "openingTimes" k) as [<-|_]; [reflexivity|].
  destruct (String.eqb_spec "productCodes" k) as [<-|N]; [reflexivity|].
  destruct (String.eqb_spec k "productCodes") as [->|_]; [contradiction|reflexivity].
Qed.

Lemma renamed_codes (r : Row) :
  dict_lookup "product_codes" r = None ->
  dict_lookup "product_codes"
    (map (fun kv : string * pyval => (rename_label branch_renames (fst kv), snd kv)) r)
  = dict_lookup "productCodes" r.
Proof.
  induction r as [|[k v] r IH]; [reflexivity|].
  cbn [map fst snd dict_lookup]. rewrite rename_to_codes.
  destruct (String.eqb_spec k "product_codes") as [->|NK]; [discriminate|].
  intros H. rewrite orb_false_r, (IH H). reflexivity.
Qed.

Lemma label_count_absent (df : DataFrame) (c : string) :
  has_column df c = false -> label_count df c = 0.
Proof.
  unfold has_column, label_count. induction (columns df) as [|k ks IH]; [reflexivity|].
  cbn [existsb filter]. intros H. apply orb_false_iff in H as [Hk H].
  rewrite Hk. now apply IH.
Qed.

Lemma label_count_distinct (df : DataFrame) (c : string) :
  distinct (columns df) = true -> label_count df c <= 1.
Proof.
  unfold label_count. induction (columns df) as [|k ks IH]; [cbn; lia|].
  cbn [distinct filter]. intros H. apply andb_true_iff in H as [Hk H].
  destruct (String.eqb_spec c k) as [->|_]; [|now apply IH].
  apply negb_true_iff in Hk.
  assert (E : filter (String.eqb k) ks = []).
  { clear IH H. induction ks as [|j js IH]; [reflexivity|].
    cbn [existsb filter] in *. apply orb_false_iff in Hk as [Hj Hk].
    rewrite Hj. now apply IH. }
  rewrite E. cbn. lia.
Qed.

Lemma label_count_renamed (raw : DataFrame) :
  label_count (df_rename branch_renames raw) "product_codes"
  = label_count raw "productCodes" + label_count raw "product_codes".
Proof.
  unfold label_count, df_rename. cbn [columns].
  induction (columns raw) as [|k ks IH]; [reflexivity|].
  cbn [map filter]. rewrite (String.eqb_sym _ (rename_label branch_renames k)).
  rewrite rename_to_codes, (String.eqb_sym "productCodes" k), (String.eqb_sym "product_codes" k).
  destruct (String.eqb_spec k "productCodes") as [->|_]; cbn [orb length].
  - rewrite IH. cbn. lia.
  - destruct (String.eqb k "product_codes"); cbn [length]; rewrite IH; lia.
Qed.

Lemma normalize_branch_codes_plain (df : DataFrame) :
  label_count df "product_codes" <= 1 ->
  normalize_branch_codes df = with_product_codes df.
Proof.
  intros H. unfold normalize_branch_codes.
  destruct (Nat.leb_spec 2 (label_count df "product_codes")); [lia|reflexivity].
Qed.

Lemma key_of_built_frame (df : DataFrame) (r : Row) (k : string) (v : pyval) :
  keys_in df r = true -> dict_lookup k r = Some v -> has_column df k = true.
Proof.
  unfold keys_in. induction r as [|[k' x] r IH]; [discriminate|].
  cbn [forallb dict_lookup fst]. intros H. apply andb_true_iff in H as [Hk H].
  destruct (String.eqb_spec k' k) as [<-|_]; [intros _; exact Hk|now apply IH].
Qed.

(** C9 (amended).  In a raw branch frame without a [product_codes] column
    of its own, a branch whose raw [productCodes] is the string ["A,B"] has
    the code list [["A", "B"]] after normalisation, and the branches matched
    for a product of code ["A"] include it. *)
Theorem code_string_round_trip (raw : DataFrame) (b : Row) :
  built_frame raw = true ->
  has_column raw "product_codes" = false ->
  In b (records raw) ->
  dict_lookup "productCodes" b = Some (VStr "A,B") ->
  exists df_branches b' matched_branches,
    normalize_branch_codes (df_rename branch_renames raw) = Ok df_branches
    /\ b' = set_cell (map (fun kv : string * pyval =>
                             (rename_label branch_renames (fst kv), snd kv)) b)
                     "product_codes" (VList [VStr "A"; VStr "B"])
    /\ In b' (records df_branches)
    /\ cell b' "product_codes" = VList [VStr "A"; VStr "B"]
    /\ matched_branches_of (VStr "A") df_branches = Ok matched_branches
    /\ In b' (records matched_branches).
Proof.
  intros Hbuilt Hnone Hin Hraw.
  unfold built_frame in Hbuilt. apply andb_true_iff in Hbuilt as [Hd Hk].
  rewrite forallb_forall in Hk. specialize (Hk b Hin).
  pose proof (key_of_built_frame raw b _ _ Hk Hraw) as Hcol.
  assert (Hnew : dict_lookup "product_codes" b = None).
  { destruct (dict_lookup "product_codes" b) as [v|] eqn:E; [|reflexivity].
    rewrite (key_of_built_frame raw b _ _ Hk E) in Hnone. discriminate. }
  set (renamed := df_rename branch_renames raw).
  set (rb := map (fun kv : string * pyval =>
                    (rename_label branch_renames (fst kv), snd kv)) b).
  assert (Hone : label_count renamed "product_codes" <= 1).
  { subst renamed. rewrite label_count_renamed, (label_count_absent _ _ Hnone).
    pose proof (label_count_distinct raw "productCodes" Hd). lia. }
  assert (Hc : has_column renamed "product_codes" = true).
  { apply (has_column_rename branch_renames raw "productCodes" Hcol). }
  assert (Hcodes : codes_for renamed rb = VList [VStr "A"; VStr "B"]).
  { unfold codes_for. rewrite Hc. unfold cell, dict_get. subst rb.
    rewrite (renamed_codes b Hnew), Hraw. reflexivity. }
  assert (Hrb : In rb (records renamed)).
  { subst renamed rb. unfold df_rename. cbn [records].
    apply in_map with (f := map (fun kv : string * pyval =>
                                   (rename_label branch_renames (fst kv), snd kv))).
    exact Hin. }
  set (df := df_setitem renamed "product_codes" (map (codes_for renamed) (records renamed))).
  assert (Hrec : records df
                 = map (fun r => set_cell r "product_codes" (codes_for renamed r))
                       (records renamed)).
  { apply records_setitem. }
  assert (Hin' : In (set_cell rb "product_codes" (VList [VStr "A"; VStr "B"])) (records df)).
  { rewrite Hrec, <- Hcodes.
    apply in_map with (f := fun r => set_cell r "product_codes" (codes_for renamed r)).
    exact Hrb. }
  assert (Hdc : has_column df "product_codes" = true).
  { subst df. now rewrite has_column_setitem, String.eqb_refl, orb_true_r. }
  assert (Hl : forallb (fun r => is_list (cell r "product_codes")) (records df) = true).
  { rewrite Hrec, forallb_map. apply forallb_forall. intros r _.
    rewrite cell_set_same. unfold codes_for. now destruct (has_column renamed "product_codes"). }
  exists df, (set_cell rb "product_codes" (VList [VStr "A"; VStr "B"])).
  eexists. repeat split.
  - rewrite (normalize_branch_codes_plain _ Hone). apply with_product_codes_rows.
  - exact Hin'.
  - apply cell_set_same.
  - apply (matched_branches_of_lists _ _ Hdc Hl).
  - cbn [records]. apply filter_In. split; [exact Hin'|].
    rewrite cell_set_same. reflexivity.
Qed.

Lemma code_string_round_trip_witness :
  built_frame sample_raw_branches = true
  /\ has_column sample_raw_branches "product_codes" = false
  /\ dict_lookup "productCodes" (hd [] (records sample_raw_branches)) = Some (VStr "A,B")
  /\ exists df_branches b' matched_branches,
       normalize_branch_codes (df_rename branch_renames sample_raw_branches) = Ok df_branches
       /\ b' = set_cell (map (fun kv : string * pyval =>
                                (rename_label branch_renames (fst kv), snd kv))
                             (hd [] (records sample_raw_branches)))
                        "product_codes" (VList [VStr "A"; VStr "B"])
       /\ In b' (records df_branches)
       /\ cell b' "product_codes" = VList [VStr "A"; VStr "B"]
       /\ matched_branches_of (VStr "A") df_branches = Ok matched_branches
       /\ In b' (records matched_branches).
Proof.
  split; [reflexivity|]. split; [reflexivity|]. split; [reflexivity|].
  exact (code_string_round_trip sample_raw_branches (hd [] (records sample_raw_branches))
           eq_refl eq_refl (or_introl eq_refl) eq_refl).
Defined.

(** C9 as stated fails: when the raw records carry the codes under both
    keys, [productCodes] and [product_codes], renaming leaves two columns of
    the one label, normalisation raises, and [fetch_data] returns two empty
    frames: the branch whose [productCodes] is ["A,B"] is in no result. *)
Lemma clashing_labels_break_the_round_trip :
  built_frame clashing_branches_frame = true
  /\ dict_lookup "productCodes" (hd [] (records clashing_branches_frame)) = Some (VStr "A,B")
  /\ columns (df_rename branch_renames clashing_branches_frame)
     = ["branch_name"; "product_codes"; "product_codes"]
  /\ normalize_branch_codes (df_rename branch_renames clashing_branches_frame)
     = Raise ambiguous_truth
  /\ fetch_data serves_clash frame_of_objects
     = ([st_error ("Error fetching data: " ++ exn_text ambiguous_truth)],
        Ok (empty_frame, empty_frame))
  /\ app serves_clash frame_of_objects ProductToBranches "A"
     = ([st_title "🏢 Branch & ProductCode Mapper";
         st_error ("Error fetching data: " ++ exn_text ambiguous_truth);
         st_error "Could not load data from one or both APIs."], Ok tt).
Proof. repeat split; vm_compute; reflexivity. Qed.

(** C4.  On every value a cell can hold [normalize_codes] returns a list.
    On a whole column it raises: the [pd.isna] test stands before the [try]
    and cannot be used as a condition there.  [fetch_data] passes a whole
    column when renaming leaves two [product_codes] columns. *)
Theorem normalize_codes_raises_on_a_column :
  (forall x, exists l, normalize_codes x = Ok (VList l))
  /\ (forall column, normalize_codes_of_column column = Raise ambiguous_truth)
  /\ exn_class_of ambiguous_truth = ValueError
  /\ label_count (df_rename branch_renames clashing_branches_frame) "product_codes" = 2
  /\ fetch_body serves_clash frame_of_objects = Raise ambiguous_truth.
Proof.
  split; [exact normalize_codes_total|].
  split; [reflexivity|]. split; [reflexivity|]. split; vm_compute; reflexivity.
Qed.

(** ** The download *)

Lemma fetch_data_reports (requests_get_json : string -> outcome pyval)
      (pd_DataFrame : pyval -> outcome DataFrame) (e : exn) :
  fetch_body requests_get_json pd_DataFrame = Raise e ->
  fetch_data requests_get_json pd_DataFrame
  = ([st_error ("Error fetching data: " ++ exn_text e)], Ok (empty_frame, empty_frame)).
Proof. intros H. unfold fetch_data. rewrite H. reflexivity. Qed.

(** When the four steps succeed and renaming leaves no second
    [product_codes] column, the frames are returned and nothing is shown. *)
Lemma fetch_data_frames (requests_get_json : string -> outcome pyval)
      (pd_DataFrame : pyval -> outcome DataFrame)
      (products branches : pyval) (df_products df_branches : DataFrame) :
  requests_get_json PRODUCT_API_URL = Ok products ->
  requests_get_json BRANCH_API_URL = Ok branches ->
  pd_DataFrame products = Ok df_products ->
  pd_DataFrame branches = Ok df_branches ->
  label_count (df_rename branch_renames df_branches) "product_codes" <= 1 ->
  fetch_data requests_get_json pd_DataFrame
  = ([], Ok (df_rename product_renames df_products,
             df_setitem (df_rename branch_renames df_branches) "product_codes"
               (map (codes_for (df_rename branch_renames df_branches))
                    (records (df_rename branch_renames df_branches))))).
Proof.
  intros H1 H2 H3 H4 H5. unfold fetch_data, fetch_body.
  rewrite H1, H2. cbn [bind]. rewrite H3, H4. cbn [bind].
  rewrite (normalize_branch_codes_plain _ H5), with_product_codes_rows. reflexivity.
Qed.

(** C7.  When a step of the download fails (either request, or the
    construction of either frame), [fetch_data] does not raise: it returns
    two empty frames and shows one error message, the text of the exception
    after ["Error fetching data: "]. *)
Theorem fetch_failure_is_reported (requests_get_json : string -> outcome pyval)
        (pd_DataFrame : pyval -> outcome DataFrame) (e : exn) :
  (requests_get_json PRODUCT_API_URL = Raise e
   \/ (exists products,
          requests_get_json PRODUCT_API_URL = Ok products
          /\ requests_get_json BRANCH_API_URL = Raise e)
   \/ (exists products branches,
          requests_get_json PRODUCT_API_URL = Ok products
          /\ requests_get_json BRANCH_API_URL = Ok branches
          /\ pd_DataFrame products = Raise e)
   \/ (exists products branches df_products,
          requests_get_json PRODUCT_API_URL = Ok products
          /\ requests_get_json BRANCH_API_URL = Ok branches
          /\ pd_DataFrame products = Ok df_products
          /\ pd_DataFrame branches = Raise e)) ->
  fetch_data requests_get_json pd_DataFrame
  = ([st_error ("Error fetching data: " ++ exn_text e)], Ok (empty_frame, empty_frame)).
Proof.
  intros H. apply fetch_data_reports. unfold fetch_body.
  destruct H as [H|[(p & H1 & H)|[(p & b & H1 & H2 & H)|(p & b & d & H1 & H2 & H3 & H)]]].
  - now rewrite H.
  - now rewrite H1, H.
  - rewrite H1, H2. cbn [bind]. now rewrite H.
  - rewrite H1, H2. cbn [bind]. rewrite H3. cbn [bind]. now rewrite H.
Qed.

Lemma fetch_failure_is_reported_witness :
  unreachable PRODUCT_API_URL
  = Raise (mk_exn UpstreamError ("Max retries exceeded with url: " ++ PRODUCT_API_URL))
  /\ fetch_data unreachable frame_of_records
     = ([st_error ("Error fetching data: Max retries exceeded with url: " ++ PRODUCT_API_URL)],
        Ok (empty_frame, empty_frame))
  /\ frame_of_records (VInt 0)
     = Raise (mk_exn ValueError "DataFrame constructor not properly called!")
  /\ fetch_data answers_number frame_of_records
     = ([st_error "Error fetching data: DataFrame constructor not properly called!"],
        Ok (empty_frame, empty_frame)).
Proof.
  refine (conj eq_refl (conj _ (conj eq_refl _))).
  - exact (fetch_failure_is_reported unreachable frame_of_records
             (mk_exn UpstreamError ("Max retries exceeded with url: " ++ PRODUCT_API_URL))
             (or_introl eq_refl)).
  - exact (fetch_failure_is_reported answers_number frame_of_records
             (mk_exn ValueError "DataFrame constructor not properly called!")
             (or_intror (or_intror (or_introl
                (ex_intro _ (VInt 0) (ex_intro _ (VInt 0)
                   (conj eq_refl (conj eq_refl eq_refl)))))))).
Defined.

(** * Further properties of the code *)

(** ** Codes written as one string *)

Lemma split_plain (sep : ascii) (p : string) :
  contains_char sep p = false -> split sep p = [p].
Proof.
  induction p as [|c p IH]; simpl; [reflexivity|].
  intros H. apply orb_false_iff in H as [Hc Hp].
  rewrite Hc, (IH Hp). reflexivity.
Qed.

Lemma split_app_sep (sep : ascii) (p r : string) :
  contains_char sep p = false ->
  split sep (p ++ String sep r) = p :: split sep r.
Proof.
  induction p as [|c p IH]; simpl.
  - intros _. now rewrite Ascii.eqb_refl.
  - intros H. apply orb_false_iff in H as [Hc Hp].
    rewrite Hc, (IH Hp). reflexivity.
Qed.

Lemma split_join (sep : ascii) (pieces : list string) :
  pieces <> [] ->
  forallb (fun p => negb (contains_char sep p)) pieces = true ->
  split sep (join (String sep EmptyString) pieces) = pieces.
Proof.
  induction pieces as [|p ps IH]; [congruence|].
  intros _ H. simpl in H. apply andb_true_iff in H as [Hp Hps].
  apply negb_true_iff in Hp.
  destruct ps as [|q qs].
  - simpl. now apply split_plain.
  - change (join (String sep "") (p :: q :: qs))
      with (p ++ String sep (join (String sep "") (q :: qs))).
    rewrite (split_app_sep _ _ _ Hp), IH; [reflexivity|discriminate|exact Hps].
Qed.

Lemma lstrip_by_unblank (l : list uchar) :
  unblank (hd_error l) = true -> lstrip_by blank l = l.
Proof.
  destruct l as [|c l]; [reflexivity|]. cbn [hd_error unblank lstrip_by].
  intros H. apply negb_true_iff in H. now rewrite H.
Qed.

Lemma rstrip_by_unblank (l : list uchar) :
  unblank (last_error l) = true -> rstrip_by blank l = l.
Proof.
  induction l as [|c l IH]; [reflexivity|].
  destruct l as [|d l].
  - cbn [last_error unblank rstrip_by]. intros H. apply negb_true_iff in H. now rewrite H.
  - intros H.
    change (rstrip_by blank (c :: d :: l))
      with (match rstrip_by blank (d :: l) with
            | [] => if blank c then [] else [c]
            | r' => c :: r'
            end).
    now rewrite (IH H).
Qed.

Lemma strip_clean (p : string) : clean_code p = true -> strip p = p.
Proof.
  unfold clean_code, strip. intros H.
  apply andb_true_iff in H as [H Hl]. apply andb_true_iff in H as [_ Hf].
  rewrite (lstrip_by_unblank _ Hf), (rstrip_by_unblank _ Hl).
  apply text_of_code_points.
Qed.

Lemma isspace_bound (c : N) : isspace c = true -> (c <= 12288)%N.
Proof.
  unfold isspace. rewrite existsb_exists. intros (w & Hw & E).
  apply N.eqb_eq in E. subst w.
  assert (A : forallb (fun w => (w <=? 12288)%N) whitespace = true) by reflexivity.
  rewrite forallb_forall in A. now apply N.leb_le, A.
Qed.

(** A whitespace character starts with a byte that continues nothing. *)
Lemma head_char_blank (b : ascii) (r : string) :
  blank (fst (head_char b r)) = true -> continuation b = false.
Proof.
  destruct (continuation b) eqn:C; [|reflexivity]. intros H. exfalso.
  unfold continuation in C. apply andb_true_iff in C as [C1 C2].
  apply N.leb_le in C1. apply N.ltb_lt in C2.
  assert (S : fst (head_char b r) = fst (stray b)).
  { unfold head_char.
    destruct (N.ltb_spec (byte_of b) 128); [lia|].
    destruct r as [|b2 r2]; [reflexivity|].
    destruct (negb (continuation b2)); [reflexivity|].
    destruct (N.leb_spec 194 (byte_of b)); [lia|]. cbn [andb].
    destruct r2 as [|b3 r3]; [reflexivity|].
    destruct (negb (continuation b3)); [reflexivity|].
    destruct (N.leb_spec 224 (byte_of b)); [lia|]. cbn [andb].
    destruct r3 as [|b4 r4]; [reflexivity|].
    destruct (N.leb_spec 240 (byte_of b)); [lia|].
    now rewrite andb_false_r. }
  rewrite S in H. apply isspace_bound in H. cbn [stray fst code_point] in H. lia.
Qed.

Lemma code_points_nonempty (s : string) : code_points s = [] -> s = EmptyString.
Proof. destruct s as [|b r]; [reflexivity|]. now rewrite code_points_cons. Qed.

(** The characters before a run of whitespace decode on their own. *)
Lemma code_points_prefix (l1 l2 : list uchar) (s : string) :
  code_points s = (l1 ++ l2)%list -> forallb blank l2 = true ->
  code_points (text_of l1) = l1.
Proof.
  intros E B.
  assert (Hb : boundary (text_of l2) = true).
  { pose proof (code_points_suffix l1 l2 s E) as E2.
    destruct l2 as [|u l2]; [reflexivity|].
    destruct (text_of (u :: l2)) as [|b r] eqn:T; [discriminate|].
    rewrite code_points_cons in E2. injection E2 as Eu _.
    cbn [forallb] in B. apply andb_true_iff in B as [B _]. rewrite <- Eu in B.
    cbn [boundary]. now rewrite (head_char_blank _ _ B). }
  pose proof (text_of_code_points s) as T. rewrite E, text_of_app in T.
  pose proof (code_points_app (text_of l1) (text_of l2) Hb) as A.
  rewrite T, E, (code_points_suffix l1 l2 s E) in A.
  now apply app_inv_tail in A.
Qed.

Lemma code_points_strip (p : string) :
  code_points (strip p) = rstrip_by blank (lstrip_by blank (code_points p)).
Proof.
  unfold strip.
  destruct (lstrip_by_spec blank (code_points p)) as (pre & E1 & _ & _).
  destruct (rstrip_by_spec blank (lstrip_by blank (code_points p))) as (post & E2 & B2 & _).
  apply code_points_prefix with (l2 := post) (s := text_of (lstrip_by blank (code_points p)));
    [|exact B2].
  rewrite <- E2. now apply code_points_suffix with (l1 := pre) (s := p).
Qed.

Lemma contains_char_app (c : ascii) (a b : string) :
  contains_char c (a ++ b) = contains_char c a || contains_char c b.
Proof.
  induction a as [|d a IH]; [reflexivity|]. cbn [append contains_char].
  now rewrite IH, orb_assoc.
Qed.

Lemma strip_gives_clean (p : string) :
  contains_char "," p = false -> nonempty (strip p) = true -> clean_code (strip p) = true.
Proof.
  intros Hc Hn. unfold clean_code. rewrite Hn, code_points_strip.
  destruct (strip_trimmed p) as (pre & kept & post & _ & Et & Ep & _ & _ & _ & _).
  assert (Hs : contains_char "," (strip p) = false).
  { rewrite Ep, !contains_char_app in Hc.
    apply orb_false_iff in Hc as [_ Hc]. now apply orb_false_iff in Hc as [Hc _]. }
  rewrite Hs. cbn [negb andb].
  destruct (lstrip_by_spec blank (code_points p)) as (pre' & _ & _ & F).
  destruct (rstrip_by_spec blank (lstrip_by blank (code_points p))) as (post' & _ & _ & L).
  apply andb_true_iff. split.
  - apply unblank_of. intros c Hc'. apply F.
    now apply rstrip_by_first with (blank := blank).
  - apply unblank_of, L.
Qed.

(** X1.  Every code [normalize_codes] reads out of a string is clean: not
    empty, without a comma, without a whitespace character (of ASCII or
    beyond) at either end. *)
Theorem string_codes_are_clean (s : string) :
  exists codes,
    normalize_codes (VStr s) = Ok (VList (map VStr codes))
    /\ forallb clean_code codes = true.
Proof.
  exists (filter nonempty (map strip (split "," s))). split; [reflexivity|].
  apply forallb_forall. intros p Hp.
  apply filter_In in Hp as [Hin Hn].
  apply in_map_iff in Hin as (q & <- & Hq).
  apply strip_gives_clean; [|exact Hn].
  pose proof (split_pieces_free "," s) as F.
  rewrite Forall_forall in F. now apply F.
Qed.

(** X2.  Round trip: clean codes joined with commas are read back by
    [normalize_codes] as the same codes in the same order. *)
Theorem joined_codes_round_trip (codes : list string) :
  forallb clean_code codes = true ->
  normalize_codes (VStr (join "," codes)) = Ok (VList (map VStr codes)).
Proof.
  intros H. cbn [normalize_codes]. do 3 f_equal.
  destruct codes as [|p ps]; [reflexivity|].
  rewrite split_join; [|discriminate|].
  - assert (E : map strip (p :: ps) = p :: ps).
    { rewrite <- (map_id (p :: ps)) at 2. apply map_ext_in. intros q Hq.
      rewrite forallb_forall in H. now apply strip_clean, H. }
    rewrite E. apply forallb_filter_id.
    rewrite forallb_forall in *. intros q Hq. specialize (H q Hq).
    unfold clean_code in H.
    apply andb_true_iff in H as [H _]. apply andb_true_iff in H as [H _].
    now apply andb_true_iff in H as [H _].
  - rewrite forallb_forall in *. intros q Hq. specialize (H q Hq).
    unfold clean_code in H.
    apply andb_true_iff in H as [H _]. apply andb_true_iff in H as [H _].
    now apply andb_true_iff in H as [_ H].
Qed.

Lemma joined_codes_round_trip_witness :
  forallb clean_code ["PC001"; "Home cover"; "x-1"; "é" ++ no_break_space ++ "É"] = true
  /\ clean_code ("x" ++ no_break_space) = false
  /\ clean_code (em_space ++ "x") = false
  /\ normalize_codes (VStr (join "," ["PC001"; "Home cover"; "x-1";
                                      "é" ++ no_break_space ++ "É"]))
     = Ok (VList (map VStr ["PC001"; "Home cover"; "x-1"; "é" ++ no_break_space ++ "É"])).
Proof.
  split; [reflexivity|]. split; [reflexivity|]. split; [reflexivity|].
  exact (joined_codes_round_trip
           ["PC001"; "Home cover"; "x-1"; "é" ++ no_break_space ++ "É"] eq_refl).
Defined.

(** ** Renaming and normalising a frame *)

Lemma set_cell_twice (r : Row) (c : string) (v w : pyval) :
  set_cell (set_cell r c v) c w = set_cell r c w.
Proof.
  induction r as [|[k x] r IH]; simpl.
  - now rewrite String.eqb_refl.
  - destruct (String.eqb k c) eqn:E; simpl; rewrite E; [reflexivity|now rewrite IH].
Qed.



Lemma setitem_same (df : DataFrame) (c : string) (g : Row -> pyval) :
  has_column df c = true ->
  (forall r, In r (records df) -> set_cell r c (g r) = r) ->
  df_setitem df c (map g (records df)) = df.
Proof.
  intros Hc H. unfold df_setitem. rewrite Hc, combine_with_map, map_map.
  destruct df as [cols rows]. cbn [columns records fst snd] in *. f_equal.
  rewrite <- (map_id rows) at 2. apply map_ext_in. exact H.
Qed.

(** X4.  Normalising is idempotent: a frame that went through
    [with_product_codes] comes out of a second pass unchanged. *)
Theorem normalisation_is_idempotent (df : DataFrame) :
  bind (with_product_codes df) with_product_codes = with_product_codes df.
Proof.
  rewrite with_product_codes_rows. cbn [bind].
  rewrite with_product_codes_rows. f_equal.
  set (df' := df_setitem df "product_codes" (map (codes_for df) (records df))).
  assert (Hc : has_column df' "product_codes" = true).
  { subst df'. now rewrite has_column_setitem, String.eqb_refl, orb_true_r. }
  apply setitem_same; [exact Hc|].
  intros r' Hr'. subst df'. rewrite records_setitem in Hr'.
  apply in_map_iff in Hr' as (r & <- & _).
  rewrite set_cell_twice. f_equal.
  unfold codes_for at 1. rewrite Hc, cell_set_same.
  unfold codes_for. destruct (has_column df "product_codes"); reflexivity.
Qed.

Lemma rename_other (mapping : list (string * string)) (k : string) :
  forallb (fun p : string * string => negb (String.eqb (fst p) k)) mapping = true ->
  rename_label mapping k = k.
Proof.
  induction mapping as [|[old new] m IH]; simpl; [reflexivity|].
  intros H. apply andb_true_iff in H as [H1 H2].
  apply negb_true_iff in H1. rewrite H1. now apply IH.
Qed.

Lemma lookup_renamed (mapping : list (string * string)) (old new : string) (r : Row) :
  (forall k, String.eqb (rename_label mapping k) new
             = String.eqb k old || String.eqb k new) ->
  dict_lookup new r = None ->
  dict_lookup new (rename_row mapping r) = dict_lookup old r.
Proof.
  intros Hm. induction r as [|[k v] r IH]; [reflexivity|].
  unfold rename_row in *. cbn [map fst snd dict_lookup]. rewrite Hm.
  destruct (String.eqb_spec k new) as [->|NK]; [discriminate|].
  intros H. rewrite orb_false_r, (IH H). reflexivity.
Qed.

Ltac rename_cases k :=
  cbn [rename_label];
  repeat match goal with
         | |- context [String.eqb ?a k] =>
             lazymatch a with
             | k => fail
             | _ => destruct (String.eqb_spec a k) as [<-|?]; [reflexivity|]
             end
         end.

Lemma lacks_cons (r : Row) (c : string) (labels : list string) :
  lacks r (c :: labels) = true -> dict_lookup c r = None /\ lacks r labels = true.
Proof.
  unfold lacks. simpl. intros H. apply andb_true_iff in H as [H1 H2].
  split; [|exact H2]. now destruct (dict_lookup c r).
Qed.

(** X5.  Renaming loses no data: for a record that does not already use one
    of the new labels, each new label holds the cell of the label it
    replaces, for products and for branches. *)
Theorem renaming_keeps_cells (r : Row) :
  (forall mapping df,
      records (df_rename mapping df) = map (rename_row mapping) (records df))
  /\ (lacks r ["product_code"; "product_name"] = true ->
      cell (rename_row product_renames r) "product_code" = cell r "code"
      /\ cell (rename_row product_renames r) "product_name" = cell r "detail")
  /\ (lacks r ["branch_name"; "branch_manager"; "address"; "opening_hours";
               "product_codes"] = true ->
      cell (rename_row branch_renames r) "branch_name" = cell r "name"
      /\ cell (rename_row branch_renames r) "branch_manager" = cell r "manager"
      /\ cell (rename_row branch_renames r) "address" = cell r "postalAddress"
      /\ cell (rename_row branch_renames r) "opening_hours" = cell r "openingTimes"
      /\ cell (rename_row branch_renames r) "product_codes" = cell r "productCodes").
Proof.
  split; [reflexivity|]. split.
  - intros H.
    apply lacks_cons in H as [H1 H]. apply lacks_cons in H as [H2 _].
    unfold cell, dict_get. split.
    + rewrite (lookup_renamed product_renames "code" "product_code"); [reflexivity| |exact H1].
      intros k. unfold product_renames. rename_cases k.
      destruct (String.eqb_spec k "code") as [->|_]; [contradiction|reflexivity].
    + rewrite (lookup_renamed product_renames "detail" "product_name"); [reflexivity| |exact H2].
      intros k. unfold product_renames. rename_cases k.
      destruct (String.eqb_spec k "detail") as [->|_]; [contradiction|reflexivity].
  - intros H.
    apply lacks_cons in H as [H1 H]. apply lacks_cons in H as [H2 H].
    apply lacks_cons in H as [H3 H]. apply lacks_cons in H as [H4 H].
    apply lacks_cons in H as [H5 _].
    unfold cell, dict_get. repeat split.
    + rewrite (lookup_renamed branch_renames "name" "branch_name"); [reflexivity| |exact H1].
      intros k. unfold branch_renames. rename_cases k.
      destruct (String.eqb_spec k "name") as [->|_]; [contradiction|reflexivity].
    + rewrite (lookup_renamed branch_renames "manager" "branch_manager");
        [reflexivity| |exact H2].
      intros k. unfold branch_renames. rename_cases k.
      destruct (String.eqb_spec k "manager") as [->|_]; [contradiction|reflexivity].
    + rewrite (lookup_renamed branch_renames "postalAddress" "address");
        [reflexivity| |exact H3].
      intros k. unfold branch_renames. rename_cases k.
      destruct (String.eqb_spec k "postalAddress") as [->|_]; [contradiction|reflexivity].
    + rewrite (lookup_renamed branch_renames "openingTimes" "opening_hours");
        [reflexivity| |exact H4].
      intros k. unfold branch_renames. rename_cases k.
      destruct (String.eqb_spec k "openingTimes") as [->|_]; [contradiction|reflexivity].
    + rewrite (lookup_renamed branch_renames "productCodes" "product_codes");
        [reflexivity| |exact H5].
      intros k. unfold branch_renames. rename_cases k.
      destruct (String.eqb_spec k "productCodes") as [->|_]; [contradiction|reflexivity].
Qed.

Lemma renaming_keeps_cells_witness :
  lacks (hd [] (records sample_raw_branches))
        ["branch_name"; "branch_manager"; "address"; "opening_hours"; "product_codes"] = true
  /\ cell (rename_row branch_renames (hd [] (records sample_raw_branches))) "branch_name"
     = VStr "Leeds"
  /\ cell (rename_row branch_renames (hd [] (records sample_raw_branches))) "product_codes"
     = VStr "A,B".
Proof.
  refine (conj eq_refl _).
  pose proof (proj2 (proj2 (renaming_keeps_cells (hd [] (records sample_raw_branches))))
                eq_refl) as (H1 & _ & _ & _ & H5).
  exact (conj H1 H5).
Defined.

(** ** The download as a whole *)

(** X6.  Whatever the two collaborators do, every branch of a snapshot that
    [fetch_data] returns has a list under [product_codes]; when no error was
    shown, the column itself is there. *)
Theorem fetched_codes_are_lists (requests_get_json : string -> outcome pyval)
        (pd_DataFrame : pyval -> outcome DataFrame)
        (shown : list st_event) (df_products df_branches : DataFrame) :
  fetch_data requests_get_json pd_DataFrame = (shown, Ok (df_products, df_branches)) ->
  forallb (fun b => is_list (cell b "product_codes")) (records df_branches) = true
  /\ (shown = [] -> has_column df_branches "product_codes" = true).
Proof.
  unfold fetch_data, fetch_body.
  destruct (requests_get_json PRODUCT_API_URL) as [p|e|]; cbn [bind];
    [| intros [= <- <- <-]; split; [reflexivity|discriminate] | discriminate].
  destruct (requests_get_json BRANCH_API_URL) as [b|e|]; cbn [bind];
    [| intros [= <- <- <-]; split; [reflexivity|discriminate] | discriminate].
  destruct (pd_DataFrame p) as [dp|e|]; cbn [bind];
    [| intros [= <- <- <-]; split; [reflexivity|discriminate] | discriminate].
  destruct (pd_DataFrame b) as [db|e|]; cbn [bind];
    [| intros [= <- <- <-]; split; [reflexivity|discriminate] | discriminate].
  unfold normalize_branch_codes.
  destruct (2 <=? label_count (df_rename branch_renames db) "product_codes")%nat.
  { destruct (records (df_rename branch_renames db)); cbn [bind];
      [discriminate|intros [= <- <- <-]; split; [reflexivity|discriminate]]. }
  rewrite with_product_codes_rows. cbn [bind]. intros [= <- <- <-]. split.
  - rewrite records_setitem, forallb_map. apply forallb_forall. intros r _.
    rewrite cell_set_same. unfold codes_for.
    now destruct (has_column (df_rename branch_renames db) "product_codes").
  - intros _. now rewrite has_column_setitem, String.eqb_refl, orb_true_r.
Qed.

Lemma fetched_codes_are_lists_witness :
  exists df_products df_branches,
    fetch_data serves_samples frame_of_objects = ([], Ok (df_products, df_branches))
    /\ map (fun b => cell b "product_codes") (records df_branches)
       = [VList [VStr "A"; VStr "B"]; VList [VStr "B"]]
    /\ forallb (fun b => is_list (cell b "product_codes")) (records df_branches) = true
    /\ (@nil st_event = [] -> has_column df_branches "product_codes" = true).
Proof.
  eexists. eexists.
  refine (conj eq_refl (conj eq_refl _)).
  exact (fetched_codes_are_lists serves_samples frame_of_objects _ _ _ eq_refl).
Defined.

(** ** The script as a whole *)

Lemma df_empty_no_records (df : DataFrame) : records df = [] -> df_empty df = true.
Proof. unfold df_empty. now intros ->. Qed.

Lemma df_empty_rename (mapping : list (string * string)) (df : DataFrame) :
  df_empty (df_rename mapping df) = df_empty df.
Proof.
  unfold df_empty, df_rename. cbn [records columns].
  destruct (records df), (columns df); reflexivity.
Qed.

Lemma df_empty_setitem (df : DataFrame) (c : string) (g : Row -> pyval) :
  df_empty (df_setitem df c (map g (records df)))
  = match records df with [] => true | _ => false end.
Proof.
  unfold df_empty. rewrite records_setitem.
  destruct (records df) as [|r rs]; [reflexivity|]. cbn [map].
  unfold df_setitem. cbn [columns].
  destruct (has_column df c) eqn:H.
  - unfold has_column in H. destruct (columns df); [discriminate|reflexivity].
  - destruct (columns df); reflexivity.
Qed.

(** X7.  When the download fails, the script shows its title, the error of
    [fetch_data] and the message that the data could not be loaded, and runs
    no search, whatever the mode and the term. *)
Theorem app_reports_failed_download (requests_get_json : string -> outcome pyval)
        (pd_DataFrame : pyval -> outcome DataFrame) (e : exn)
        (search_mode : mode) (search_input : string) :
  fetch_body requests_get_json pd_DataFrame = Raise e ->
  app requests_get_json pd_DataFrame search_mode search_input
  = ([st_title "🏢 Branch & ProductCode Mapper";
      st_error ("Error fetching data: " ++ exn_text e);
      st_error "Could not load data from one or both APIs."], Ok tt).
Proof.
  intros H. unfold app. rewrite ui_bind_emit, (fetch_data_reports _ _ _ H).
  reflexivity.
Qed.

Lemma app_reports_failed_download_witness :
  fetch_body unreachable frame_of_records
  = Raise (mk_exn UpstreamError ("Max retries exceeded with url: " ++ PRODUCT_API_URL))
  /\ app unreachable frame_of_records BranchToProducts "Leeds"
     = ([st_title "🏢 Branch & ProductCode Mapper";
         st_error ("Error fetching data: Max retries exceeded with url: "
                   ++ PRODUCT_API_URL);
         st_error "Could not load data from one or both APIs."], Ok tt).
Proof.
  refine (conj eq_refl _).
  exact (app_reports_failed_download unreachable frame_of_records _
           BranchToProducts "Leeds" eq_refl).
Defined.

(** X8.  When the download succeeds, renaming leaves no second
    [product_codes] column, and a frame has no records (an upstream
    answering with an empty list), the script shows only its title and the
    message that the data could not be loaded, and runs no search. *)
Theorem app_stops_without_records (requests_get_json : string -> outcome pyval)
        (pd_DataFrame : pyval -> outcome DataFrame)
        (products branches : pyval) (df_products df_branches : DataFrame)
        (search_mode : mode) (search_input : string) :
  requests_get_json PRODUCT_API_URL = Ok products ->
  requests_get_json BRANCH_API_URL = Ok branches ->
  pd_DataFrame products = Ok df_products ->
  pd_DataFrame branches = Ok df_branches ->
  label_count (df_rename branch_renames df_branches) "product_codes" <= 1 ->
  records df_products = [] \/ records df_branches = [] ->
  app requests_get_json pd_DataFrame search_mode search_input
  = ([st_title "🏢 Branch & ProductCode Mapper";
      st_error "Could not load data from one or both APIs."], Ok tt).
Proof.
  intros H1 H2 H3 H4 H5 He. unfold app.
  rewrite ui_bind_emit, (fetch_data_frames _ _ _ _ _ _ H1 H2 H3 H4 H5).
  cbn [ui_bind fst snd].
  rewrite df_empty_rename, df_empty_setitem. cbn [df_rename records].
  destruct He as [He|He].
  - now rewrite (df_empty_no_records _ He).
  - rewrite He. cbn [map]. now rewrite orb_true_r.
Qed.

Lemma app_stops_without_records_witness :
  serves_nothing PRODUCT_API_URL = Ok (VList [])
  /\ frame_of_objects (VList []) = Ok empty_frame
  /\ label_count (df_rename branch_renames empty_frame) "product_codes" = 0
  /\ app serves_nothing frame_of_objects ProductToBranches "car"
     = ([st_title "🏢 Branch & ProductCode Mapper";
         st_error "Could not load data from one or both APIs."], Ok tt).
Proof.
  refine (conj eq_refl (conj eq_refl (conj eq_refl _))).
  exact (app_stops_without_records serves_nothing frame_of_objects
           (VList []) (VList []) empty_frame empty_frame ProductToBranches "car"
           eq_refl eq_refl eq_refl eq_refl (Nat.le_0_l 1) (or_introl eq_refl)).
Defined.

(** X9.  When the download succeeds, both frames have records and
    renaming leaves the labels of each frame pairwise different, the script
    shows its title and the sidebar header and then runs the search of the
    chosen mode on the renamed products and the normalised branches; it ends
    as that search ends. *)
Theorem app_runs_the_search (requests_get_json : string -> outcome pyval)
        (pd_DataFrame : pyval -> outcome DataFrame)
        (products branches : pyval) (df_products df_branches : DataFrame)
        (search_mode : mode) (search_input : string) :
  requests_get_json PRODUCT_API_URL = Ok products ->
  requests_get_json BRANCH_API_URL = Ok branches ->
  pd_DataFrame products = Ok df_products ->
  pd_DataFrame branches = Ok df_branches ->
  df_empty df_products = false ->
  records df_branches <> [] ->
  distinct (columns (df_rename product_renames df_products)) = true ->
  distinct (columns (df_rename branch_renames df_branches)) = true ->
  exists snapshot_branches,
    normalize_branch_codes (df_rename branch_renames df_branches) = Ok snapshot_branches
    /\ app requests_get_json pd_DataFrame search_mode search_input
       = let search :=
           match search_mode with
           | ProductToBranches =>
               product_to_branches search_input
                 (df_rename product_renames df_products) snapshot_branches
           | BranchToProducts =>
               branch_to_products search_input
                 (df_rename product_renames df_products) snapshot_branches
           end in
         (st_title "🏢 Branch & ProductCode Mapper"
          :: st_header "Search Options" :: fst search, snd search).
Proof.
  intros H1 H2 H3 H4 Hp Hb Dp Db.
  pose proof (label_count_distinct _ "product_codes" Db) as H5.
  eexists. split.
  { rewrite (normalize_branch_codes_plain _ H5). apply with_product_codes_rows. }
  unfold app.
  rewrite ui_bind_emit, (fetch_data_frames _ _ _ _ _ _ H1 H2 H3 H4 H5).
  cbn [ui_bind fst snd].
  rewrite df_empty_rename, df_empty_setitem, Hp. cbn [df_rename records].
  destruct (records df_branches) as [|b bs]; [congruence|].
  cbn [map orb]. rewrite ui_bind_emit. cbn [fst snd].
  match goal with
  | |- (_ :: ?w, ?o) = _ => destruct search_mode; reflexivity
  end.
Qed.

Lemma app_runs_the_search_witness :
  df_empty sample_products_frame = false
  /\ records sample_branches_frame <> []
  /\ distinct (columns (df_rename product_renames sample_products_frame)) = true
  /\ distinct (columns (df_rename branch_renames sample_branches_frame)) = true
  /\ app serves_samples frame_of_objects BranchToProducts "york"
     = ([st_title "🏢 Branch & ProductCode Mapper";
         st_header "Search Options";
         st_subheader "🏢 Search by Branch";
         st_markdown "### York";
         st_write "**Manager:** Bob";
         st_write "**Address:** 2 Low St";
         st_write "**Opening Hours:** N/A";
         st_write "**Products allocated to this branch:** 1";
         st_dataframe
           (mk_df ["product_code"; "product_name"]
                  [[("product_code", VStr "B"); ("product_name", VStr "Home")]])],
        Ok tt).
Proof.
  split; [reflexivity|]. split; [discriminate|].
  split; [reflexivity|]. split; [reflexivity|].
  destruct (app_runs_the_search serves_samples frame_of_objects
              sample_products_json sample_branches_json
              sample_products_frame sample_branches_frame BranchToProducts "york"
              eq_refl eq_refl eq_refl eq_refl eq_refl ltac:(discriminate)
              eq_refl eq_refl)
    as (snapshot & Hs & Happ).
  vm_compute in Hs. injection Hs as <-.
  vm_compute. vm_compute in Happ. exact Happ.
Defined.

(** ** The searches *)

Lemma points_nonempty (s : string) :
  nonempty s = match points s with [] => false | _ => true end.
Proof.
  unfold points. destruct s as [|b r]; [reflexivity|]. now rewrite code_points_cons.
Qed.

Lemma starts_with_same_keys (t1 t2 s : list N) :
  map case_key t1 = map case_key t2 -> starts_with t1 s = starts_with t2 s.
Proof.
  revert t2 s. induction t1 as [|a t1 IH]; intros [|b t2] s E; try discriminate;
    [reflexivity|].
  cbn [map] in E. injection E as Ea Et.
  destruct s as [|c s]; [reflexivity|]. cbn [starts_with].
  unfold same_letter. now rewrite Ea, (IH _ s Et).
Qed.

Lemma occurs_same_keys (t1 t2 s : list N) :
  map case_key t1 = map case_key t2 -> occurs t1 s = occurs t2 s.
Proof.
  intros E. induction s as [|c s IH]; cbn [occurs];
    rewrite (starts_with_same_keys _ _ _ E); [reflexivity|now rewrite IH].
Qed.

Lemma str_contains_same_case (t1 t2 : string) (texts : list string) :
  plain_term t1 = true -> plain_term t2 = true ->
  map case_key (points t1) = map case_key (points t2) ->
  str_contains t1 texts = str_contains t2 texts.
Proof.
  intros P1 P2 E. rewrite !str_contains_plain by assumption.
  f_equal. apply map_ext. intros s. unfold icontains. now apply occurs_same_keys.
Qed.

(** X10.  The letter case of the term does not matter: two terms without
    regular-expression characters whose characters are, one by one, the
    same letters case aside give the same run of each search, on every
    pair of frames. *)
Theorem search_ignores_term_case (t1 t2 : string) (df_products df_branches : DataFrame) :
  plain_term t1 = true ->
  plain_term t2 = true ->
  map case_key (points t1) = map case_key (points t2) ->
  product_to_branches t1 df_products df_branches
  = product_to_branches t2 df_products df_branches
  /\ branch_to_products t1 df_products df_branches
     = branch_to_products t2 df_products df_branches.
Proof.
  intros P1 P2 E.
  assert (N : nonempty t1 = nonempty t2).
  { rewrite !points_nonempty.
    destruct (points t1), (points t2); try discriminate; reflexivity. }
  assert (Mp : product_search_mask t1 df_products = product_search_mask t2 df_products).
  { unfold product_search_mask.
    destruct (df_getitem df_products "product_name") as [names|e|]; cbn [bind]; try reflexivity.
    rewrite (str_contains_same_case t1 t2 _ P1 P2 E).
    destruct (str_contains t2 (astype_str names)) as [m|e|]; cbn [bind]; try reflexivity.
    destruct (df_getitem df_products "product_code") as [codes|e|]; cbn [bind]; try reflexivity.
    now rewrite (str_contains_same_case t1 t2 _ P1 P2 E). }
  assert (Mb : branch_search_mask t1 df_branches = branch_search_mask t2 df_branches).
  { unfold branch_search_mask.
    destruct (df_getitem df_branches "branch_name") as [names|e|]; cbn [bind]; try reflexivity.
    apply (str_contains_same_case t1 t2 _ P1 P2 E). }
  unfold product_to_branches, branch_to_products. now rewrite N, Mp, Mb.
Qed.

Lemma search_ignores_term_case_witness :
  plain_term "orléans" = true
  /\ plain_term "ORLÉANS" = true
  /\ map case_key (points "orléans") = map case_key (points "ORLÉANS")
  /\ map case_key (points "k") = map case_key (points kelvin_sign)
  /\ map case_key (points "e") <> map case_key (points "é")
  /\ product_to_branches "orléans" accented_products accented_branches
     = product_to_branches "ORLÉANS" accented_products accented_branches
  /\ branch_to_products "orléans" accented_products accented_branches
     = branch_to_products "ORLÉANS" accented_products accented_branches.
Proof.
  split; [reflexivity|]. split; [reflexivity|]. split; [reflexivity|].
  split; [reflexivity|]. split; [discriminate|].
  exact (search_ignores_term_case "orléans" "ORLÉANS" accented_products accented_branches
           eq_refl eq_refl eq_refl).
Defined.

Lemma alike_trans (a b c : list N) : alike a b -> alike b c -> alike a c.
Proof.
  unfold alike. intros H. revert c. induction H as [|x y a b L H IH]; intros c Hc.
  - inversion Hc. constructor.
  - inversion Hc as [|? z ? c' L' Hc']; subst. constructor.
    + exact (same_letter_trans _ _ _ L L').
    + now apply IH.
Qed.

Lemma occurs_trans (a b c : list N) :
  occurs a b = true -> occurs b c = true -> occurs a c = true.
Proof.
  rewrite !occurs_alike.
  intros (p1 & m1 & q1 & -> & F1) (p2 & m2 & q2 & -> & F2).
  unfold alike in F2.
  apply Forall2_app_inv_l in F2 as (p1' & r & _ & F2 & ->).
  apply Forall2_app_inv_l in F2 as (m1' & q1' & F2 & _ & ->).
  exists (p2 ++ p1')%list, m1', (q1' ++ q2)%list. split.
  - now rewrite <- !app_assoc.
  - exact (alike_trans _ _ _ F1 F2).
Qed.

(** X11.  Refining the term never adds products: when a term without
    regular-expression characters occurs, letter case aside, in a longer
    such term, every product the longer term selects is selected by the
    shorter one. *)
Theorem longer_term_selects_fewer (t t' : string) (df_products : DataFrame) :
  plain_term t = true ->
  plain_term t' = true ->
  icontains t t' = true ->
  has_columns df_products product_schema = true ->
  exists mask mask',
    product_search_mask t df_products = Ok mask
    /\ product_search_mask t' df_products = Ok mask'
    /\ incl (records (df_mask df_products mask')) (records (df_mask df_products mask)).
Proof.
  intros P P' S H.
  rewrite (product_search_mask_plain t _ P H), (product_search_mask_plain t' _ P' H).
  eexists. eexists. repeat split.
  unfold df_mask. cbn [records]. rewrite !select_map.
  intros p Hp. apply filter_In in Hp as [Hin Hm]. apply filter_In. split; [exact Hin|].
  apply orb_true_iff in Hm. apply orb_true_iff.
  unfold icontains in *.
  destruct Hm as [Hm|Hm]; [left|right]; exact (occurs_trans _ _ _ S Hm).
Qed.

Lemma longer_term_selects_fewer_witness :
  plain_term "É" = true
  /\ plain_term "café" = true
  /\ icontains "É" "café" = true
  /\ has_columns accented_products product_schema = true
  /\ exists mask mask',
       product_search_mask "É" accented_products = Ok mask
       /\ product_search_mask "café" accented_products = Ok mask'
       /\ incl (records (df_mask accented_products mask'))
               (records (df_mask accented_products mask)).
Proof.
  split; [reflexivity|]. split; [reflexivity|]. split; [reflexivity|].
  split; [reflexivity|].
  exact (longer_term_selects_fewer "É" "café" accented_products
           eq_refl eq_refl eq_refl eq_refl).
Defined.

(** X13.  A search needs the column it searches: with a term entered, the
    product search raises [KeyError] right after its subheader when the
    products have no [product_name] column (or, for a term without
    regular-expression characters, no [product_code] column), and the branch
    search does when the branches have no [branch_name] column. *)
Theorem search_needs_its_column (term : string) (df_products df_branches : DataFrame) :
  nonempty term = true ->
  (has_column df_products "product_name" = false ->
   product_to_branches term df_products df_branches
   = ([st_subheader "🔍 Search by Product"], Raise (key_error "product_name")))
  /\ (plain_term term = true ->
      has_column df_products "product_name" = true ->
      has_column df_products "product_code" = false ->
      product_to_branches term df_products df_branches
      = ([st_subheader "🔍 Search by Product"], Raise (key_error "product_code")))
  /\ (has_column df_branches "branch_name" = false ->
      branch_to_products term df_products df_branches
      = ([st_subheader "🏢 Search by Branch"], Raise (key_error "branch_name"))).
Proof.
  intros N. repeat split.
  - intros H. unfold product_to_branches, product_search_mask, df_getitem.
    rewrite ui_bind_emit, N, H. reflexivity.
  - intros P Hn Hc. unfold product_to_branches, product_search_mask, df_getitem.
    rewrite ui_bind_emit, N, Hn, Hc. cbn [bind].
    rewrite (str_contains_plain _ _ P). reflexivity.
  - intros H. unfold branch_to_products, branch_search_mask, df_getitem.
    rewrite ui_bind_emit, N, H. reflexivity.
Qed.

Lemma search_needs_its_column_witness :
  nonempty "car" = true
  /\ has_column raw_products "product_name" = false
  /\ has_column sample_raw_branches "branch_name" = false
  /\ product_to_branches "car" raw_products sample_raw_branches
     = ([st_subheader "🔍 Search by Product"], Raise (key_error "product_name"))
  /\ branch_to_products "car" raw_products sample_raw_branches
     = ([st_subheader "🏢 Search by Branch"], Raise (key_error "branch_name")).
Proof.
  split; [reflexivity|]. split; [reflexivity|]. split; [reflexivity|].
  pose proof (search_needs_its_column "car" raw_products sample_raw_branches eq_refl)
    as (H1 & _ & H3).
  exact (conj (H1 eq_refl) (H3 eq_refl)).
Defined.

Lemma branch_panel_without_details (matched_branches df_products : DataFrame) (b : Row) :
  has_column matched_branches "branch_name" = true ->
  has_column matched_branches "product_codes" = true ->
  has_column matched_branches "branch_manager" = false ->
  has_column matched_branches "address" = false ->
  has_column matched_branches "opening_hours" = false ->
  has_columns df_products product_schema = true ->
  list_of_atoms (cell b "product_codes") = true ->
  forallb (fun p => hashable (cell p "product_code")) (records df_products) = true ->
  branch_panel matched_branches df_products b
  = (List.app [st_markdown ("### " ++ py_str (cell b "branch_name"));
          st_write "**Manager:** N/A";
          st_write "**Address:** N/A";
          st_write "**Opening Hours:** N/A"]
         match filter (fun p => Spec.allocated p b) (records df_products) with
         | [] => [st_warning "No products found for this branch."]
         | ps => [st_write ("**Products allocated to this branch:** "
                            ++ str_of_nat (length ps));
                  st_dataframe (Spec.product_table ps)]
         end, Ok tt).
Proof.
  intros Hbn Hbc Hbm Hba Hbo Hp Hs Hh.
  pose proof Hp as Hp'. apply has_columns_cons in Hp' as [Hcode _].
  unfold branch_panel, row_getitem, row_get.
  rewrite Hbn, Hbm, Hba, Hbo, Hbc.
  rewrite format_opening_hours_returns.
  rewrite !ui_bind_lift, !ui_bind_emit.
  unfold Spec.allocated.
  destruct (cell b "product_codes") as [| | | | | |l|] eqn:C; try discriminate Hs.
  cbn [list_of_atoms] in Hs.
  rewrite py_or_list, (matched_products_of_atoms _ _ Hcode Hs Hh), ui_bind_lift.
  cbn [records].
  rewrite (df_empty_columns _ "product_code" _ Hcode).
  destruct (filter _ (records df_products)) as [|p ps] eqn:F; [reflexivity|].
  cbn [negb]. rewrite ui_bind_emit, df_project_present, ui_bind_lift.
  - reflexivity.
  - exact Hp.
Qed.

(** X14.  The branch search does without the detail columns: for a
    non-empty term without regular-expression characters, on frames whose
    codes are single values, when the branches have no manager, address
    and opening-hours columns, every matched branch is shown with ["N/A"]
    in their place, followed by its products as usual. *)
Theorem branch_search_without_details (term : string) (df_products df_branches : DataFrame) :
  nonempty term = true ->
  plain_term term = true ->
  has_columns df_products product_schema = true ->
  has_columns df_branches ["branch_name"; "product_codes"] = true ->
  existsb (has_column df_branches) ["branch_manager"; "address"; "opening_hours"] = false ->
  single_codes df_products df_branches = true ->
  branch_to_products term df_products df_branches
  = (st_subheader "🏢 Search by Branch"
     :: match filter (fun b => icontains term (py_str (cell b "branch_name")))
                     (records df_branches) with
        | [] => [st_warning "No branches found matching your search."]
        | found =>
            flat_map
              (fun b =>
                 List.app [st_markdown ("### " ++ py_str (cell b "branch_name"));
                      st_write "**Manager:** N/A";
                      st_write "**Address:** N/A";
                      st_write "**Opening Hours:** N/A"]
                     match filter (fun p => Spec.allocated p b) (records df_products) with
                     | [] => [st_warning "No products found for this branch."]
                     | ps => [st_write ("**Products allocated to this branch:** "
                                        ++ str_of_nat (length ps));
                              st_dataframe (Spec.product_table ps)]
                     end)
              found
        end, Ok tt).
Proof.
  intros NE P Hp Hb Hd S.
  apply has_columns_cons in Hb as [Hbn Hb]. apply has_columns_cons in Hb as [Hbc _].
  cbn [existsb] in Hd.
  apply orb_false_iff in Hd as [Hbm Hd]. apply orb_false_iff in Hd as [Hba Hd].
  apply orb_false_iff in Hd as [Hbo _].
  unfold single_codes in S. apply andb_true_iff in S as [Hs Hh].
  unfold branch_to_products. rewrite ui_bind_emit, NE.
  rewrite (branch_search_mask_plain _ _ P Hbn), ui_bind_lift.
  unfold df_mask. rewrite select_map.
  rewrite (df_empty_columns _ "branch_name" _ Hbn).
  destruct (filter _ (records df_branches)) as [|b bs] eqn:E; [reflexivity|].
  cbn [negb records].
  erewrite for_each_events; [reflexivity|].
  intros a Ha. apply branch_panel_without_details; try assumption.
  rewrite forallb_forall in Hs. apply Hs.
  rewrite <- E in Ha. now apply filter_In in Ha as [Ha _].
Qed.

Lemma branch_search_without_details_witness :
  has_columns bare_branches ["branch_name"; "product_codes"] = true
  /\ existsb (has_column bare_branches) ["branch_manager"; "address"; "opening_hours"]
     = false
  /\ branch_to_products "leeds" sample_products bare_branches
     = ([st_subheader "🏢 Search by Branch";
         st_markdown "### Leeds";
         st_write "**Manager:** N/A";
         st_write "**Address:** N/A";
         st_write "**Opening Hours:** N/A";
         st_write "**Products allocated to this branch:** 1";
         st_dataframe
           (mk_df ["product_code"; "product_name"]
                  [[("product_code", VStr "A"); ("product_name", VStr "Car")]])],
        Ok tt).
Proof.
  split; [reflexivity|]. split; [reflexivity|].
  exact (branch_search_without_details "leeds" sample_products bare_branches
           eq_refl eq_refl eq_refl eq_refl eq_refl eq_refl).
Defined.

(** X15.  The product search, unlike the branch search, needs the detail
    columns as soon as a product has a branch to show: without an
    [opening_hours] column the panel of such a product shows its heading and
    the count and then raises [KeyError]. *)
Theorem product_panel_needs_details (matched_products df_branches : DataFrame) (p : Row) :
  has_columns matched_products product_schema = true ->
  has_column df_branches "product_codes" = true ->
  forallb (fun b => is_list (cell b "product_codes")) (records df_branches) = true ->
  has_column df_branches "opening_hours" = false ->
  filter (fun b => Spec.allocated p b) (records df_branches) <> [] ->
  product_panel matched_products df_branches p
  = ([st_markdown ("### " ++ py_str (cell p "product_name")
                   ++ " (`" ++ py_str (cell p "product_code") ++ "`)");
      st_write ("**Allocated Branches:** "
                ++ str_of_nat (length (filter (fun b => Spec.allocated p b)
                                              (records df_branches)))
                ++ " found.")],
     Raise (key_error "opening_hours")).
Proof.
  intros Hp Hbc Hl Hbo Hne.
  apply has_columns_cons in Hp as [Hcode Hp].
  apply has_columns_cons in Hp as [Hname _].
  unfold product_panel, row_getitem. rewrite Hcode, Hname.
  rewrite !ui_bind_lift, ui_bind_emit.
  rewrite (matched_branches_of_lists _ _ Hbc Hl), ui_bind_lift.
  cbn [records].
  rewrite (df_empty_columns _ "product_codes" _ Hbc).
  unfold Spec.allocated in *.
  destruct (filter _ (records df_branches)) as [|b bs] eqn:F; [congruence|].
  cbn [negb]. rewrite ui_bind_emit.
  unfold display_branches, df_getitem.
  change (has_column (mk_df (columns df_branches) (b :: bs)) "opening_hours")
    with (has_column df_branches "opening_hours").
  rewrite Hbo. reflexivity.
Qed.

Lemma product_panel_needs_details_witness :
  has_column bare_branches "opening_hours" = false
  /\ product_panel sample_products bare_branches (hd [] (records sample_products))
     = ([st_markdown "### Car (`A`)"; st_write "**Allocated Branches:** 1 found."],
        Raise (key_error "opening_hours")).
Proof.
  split; [reflexivity|].
  exact (product_panel_needs_details sample_products bare_branches
           (hd [] (records sample_products))
           eq_refl eq_refl eq_refl eq_refl ltac:(discriminate)).
Defined.

(** ** Opening hours *)

Lemma entry_texts_has_hours (entries : list pyval) :
  entry_texts (filter has_hours entries) = entry_texts entries.
Proof.
  unfold entry_texts. induction entries as [|entry rest IH]; [reflexivity|].
  cbn [filter].
  assert (E : has_hours entry = false -> entry_text entry = None).
  { destruct entry as [| |b|n|f|s|l|e]; try reflexivity.
    unfold entry_text. now intros ->. }
  destruct (has_hours entry) eqn:H.
  - cbn [flat_map]. now rewrite IH.
  - cbn [flat_map]. now rewrite (E eq_refl), IH.
Qed.

(** X16.  Entries that are not records, or that lack an opening or a
    closing hour, never influence the text: formatting a list gives what
    formatting its entries with both hours gives. *)
Theorem hours_ignore_unusable_entries (entries : list pyval) :
  format_opening_hours (VList entries)
  = format_opening_hours (VList (filter has_hours entries)).
Proof.
  now rewrite !format_opening_hours_list, entry_texts_has_hours.
Qed.
